(** * SNExercise: distance calculator of [sn_exercise.py]

    A shallow embedding of the class [SNExercise]: [__init__] and the five
    methods [calculate_parameter_s], [calculate_scale_factor],
    [conformal_time], [luminosity_distance] and [distance_modulus].  The
    program computes with binary64 floats; it is read here in two ways.

    Exact arithmetic.  The definitions at the top level read floats as real
    numbers: [+], [-], [*] are the field operations of [R], and a decimal
    literal of the source such as [0.1540] is the same decimal literal here
    (the rational 1540/10000 injected in [R]).  What the floating-point
    runtime does at a numeric singularity (a division by zero, a negative
    base under a fractional exponent, the square root or the logarithm
    outside its domain) has no real value; all of it is collected in the
    outcome [Singular].  The two [raise ValueError(...)] statements of the
    source are the outcome [Raises (ValueError msg)], with the message of the
    source.  A redshift is a scalar or a one-dimensional numpy array;
    arithmetic broadcasts a scalar over an array and works element by
    element on two arrays of one length.  A general statement proved in this
    reading describes the program up to rounding, and only on arguments that
    keep every intermediate result inside the range of binary64; the
    statements say which.

    Binary64.  The module [Binary64] runs the same methods on primitive
    binary64 floats, for a redshift given as a Python float: rounding,
    absorption, overflow, infinities and NaN are those of IEEE 754, a
    division of Python floats by zero raises [ZeroDivisionError], a power of
    Python floats that overflows raises [OverflowError], and numpy's
    functions return infinities and NaN instead.  The C library's [pow] and
    [log10], which are not part of the repository, are given by a reference
    implementation that rounds the exact value to the nearest float
    ([Libm]).  This reading computes; it decides what the program does at a
    given input, such as the inputs at which a statement of the exact
    reading stops describing it. *)

From Stdlib Require Import Floats ZArith.
From Stdlib Require Import Reals Lra Psatz List String Bool.
Import ListNotations.

Set Warnings "-inexact-float".

Open Scope R_scope.

(** ** Outcomes of a call *)

Inductive exn : Type :=
| ValueError (msg : string).

Inductive outcome (A : Type) : Type :=
| Returns (a : A)
| Raises (e : exn)
| Singular.

Arguments Returns {A} a.
Arguments Raises {A} e.
Arguments Singular {A}.

Definition bind {A B : Type} (m : outcome A) (k : A -> outcome B) : outcome B :=
  match m with
  | Returns a => k a
  | Raises e => Raises e
  | Singular => Singular
  end.

Notation "x <- m ;; k" := (bind m (fun x => k))
  (at level 61, m at next level, right associativity).

(** ** Comparisons of reals as booleans *)

Definition Req_bool (x y : R) : bool := if Req_dec_T x y then true else false.
Definition Rle_bool (x y : R) : bool := if Rle_dec x y then true else false.
Definition Rlt_bool (x y : R) : bool := if Rlt_dec x y then true else false.

(** ** Scalar arithmetic that can hit a singularity *)

(** [x / y]. *)
Definition div (x y : R) : outcome R :=
  if Req_bool y 0 then Singular else Returns (x / y).

(** [x ** y] with a float exponent [y] that is not an integer (the program
    uses [1 / 3] and [-1 / 8]): the real power on a positive base, [0] to a
    positive power is [0], and a negative base or [0] to a negative power
    has no real value. *)
Definition pow_float (x y : R) : outcome R :=
  if Rlt_bool 0 x then Returns (Rpower x y)
  else if Req_bool x 0 then (if Rlt_bool 0 y then Returns 0 else Singular)
  else Singular.

(** [np.sqrt(x)]. *)
Definition np_sqrt (x : R) : outcome R :=
  if Rle_bool 0 x then Returns (sqrt x) else Singular.

(** The decimal logarithm on positive reals. *)
Definition log10 (x : R) : R := ln x / ln 10.

(** [np.log10(x)]. *)
Definition np_log10 (x : R) : outcome R :=
  if Rlt_bool 0 x then Returns (log10 x) else Singular.

(** ** Scalars and arrays *)

Inductive value : Type :=
| Scalar (x : R)
| Array (xs : list R).

Definition broadcast_error : exn :=
  ValueError "operands could not be broadcast together".

Fixpoint mapM (f : R -> outcome R) (xs : list R) : outcome (list R) :=
  match xs with
  | [] => Returns []
  | x :: xs' => y <- f x ;; ys <- mapM f xs' ;; Returns (y :: ys)
  end.

Fixpoint zipM (f : R -> R -> outcome R) (xs ys : list R) : outcome (list R) :=
  match xs, ys with
  | x :: xs', y :: ys' => z <- f x y ;; zs <- zipM f xs' ys' ;; Returns (z :: zs)
  | _, _ => Returns []
  end.

(** A unary numpy function, element by element. *)
Definition ufunc1 (f : R -> outcome R) (v : value) : outcome value :=
  match v with
  | Scalar x => y <- f x ;; Returns (Scalar y)
  | Array xs => ys <- mapM f xs ;; Returns (Array ys)
  end.

(** A binary operator with numpy broadcasting. *)
Definition ufunc2 (f : R -> R -> outcome R) (a b : value) : outcome value :=
  match a, b with
  | Scalar x, Scalar y => z <- f x y ;; Returns (Scalar z)
  | Scalar x, Array ys => zs <- mapM (f x) ys ;; Returns (Array zs)
  | Array xs, Scalar y => zs <- mapM (fun x => f x y) xs ;; Returns (Array zs)
  | Array xs, Array ys =>
      if Nat.eqb (List.length xs) (List.length ys)
      then zs <- zipM f xs ys ;; Returns (Array zs)
      else Raises broadcast_error
  end.

Definition lift2 (op : R -> R -> R) : value -> value -> outcome value :=
  ufunc2 (fun x y => Returns (op x y)).

Definition vadd : value -> value -> outcome value := lift2 Rplus.
Definition vsub : value -> value -> outcome value := lift2 Rminus.
Definition vmul : value -> value -> outcome value := lift2 Rmult.
Definition vdiv : value -> value -> outcome value := ufunc2 div.

(** [v ** n] with an integer literal [n]. *)
Definition vpow (v : value) (n : nat) : outcome value :=
  ufunc1 (fun x => Returns (x ^ n)) v.

(** [v ** y] with a float exponent. *)
Definition vpow_float (v : value) (y : R) : outcome value :=
  ufunc1 (fun x => pow_float x y) v.

Definition vlog10 : value -> outcome value := ufunc1 np_log10.

(** [(v <= 0).any()]. *)
Definition any_le_0 (v : value) : bool :=
  match v with
  | Scalar x => Rle_bool x 0
  | Array xs => existsb (fun x => Rle_bool x 0) xs
  end.

(** ** The class *)

(** The attributes set by [__init__]: [self.redshift_range], [self.h] and
    [self.omega_m]. *)
Module Self.

Record t : Type := {
  redshift_range : value;
  h : R;
  omega_m : R
}.

End Self.

Definition SNExercise : Type := Self.t.

(** [not omega_m]: [None] and zero are falsy. *)
Definition py_not (o : option R) : bool :=
  match o with
  | None => true
  | Some x => Req_bool x 0
  end.

(** An optional argument: its value, or the default [d] when it is [None]
    ([if x is None: x = d]). *)
Definition or_default {A : Type} (o : option A) (d : A) : A :=
  match o with
  | None => d
  | Some x => x
  end.

Definition calculate_parameter_s (self : SNExercise) (omega_m : option R)
  : outcome R :=
  let omega_m :=
    if py_not omega_m then Self.omega_m self
    else or_default omega_m (Self.omega_m self) in
  if Req_bool omega_m 0 then Raises (ValueError "omega_m cannot be zero.")
  else
    ratio <- div (1 - omega_m) omega_m ;;
    pow_float ratio (1 / 3).

Definition calculate_scale_factor (self : SNExercise)
  (redshift_range : option value) : outcome value :=
  let redshift_range := or_default redshift_range (Self.redshift_range self) in
  denominator <- vadd (Scalar 1) redshift_range ;;
  vdiv (Scalar 1) denominator.

Definition conformal_time (self : SNExercise)
  (redshift_range : option value) (omega_m : option R) : outcome value :=
  let redshift_range := or_default redshift_range (Self.redshift_range self) in
  let omega_m := or_default omega_m (Self.omega_m self) in
  s <- calculate_parameter_s self (Some omega_m) ;;
  a <- calculate_scale_factor self (Some redshift_range) ;;
  root <- np_sqrt (s ^ 3 + 1) ;;
  let multiplier := 2 * root in
  a4 <- vpow a 4 ;;
  t1 <- vdiv (Scalar 1) a4 ;;
  a3 <- vpow a 3 ;;
  t2 <- vdiv (Scalar (0.1540 * s)) a3 ;;
  a2 <- vpow a 2 ;;
  t3 <- vdiv (Scalar (0.4304 * s ^ 2)) a2 ;;
  t4 <- vdiv (Scalar (0.19097 * s ^ 3)) a ;;
  d12 <- vsub t1 t2 ;;
  d123 <- vadd d12 t3 ;;
  d1234 <- vadd d123 t4 ;;
  multiplicand <- vadd d1234 (Scalar (0.066941 * s ^ 4)) ;;
  p <- vpow_float multiplicand (-1 / 8) ;;
  vmul (Scalar multiplier) p.

Definition luminosity_distance (self : SNExercise)
  (redshift_range : option value) (omega_m : option R) : outcome value :=
  let redshift_range := or_default redshift_range (Self.redshift_range self) in
  let omega_m := or_default omega_m (Self.omega_m self) in
  eta_a1 <- conformal_time self (Some (Scalar 0)) (Some omega_m) ;;
  eta_z <- conformal_time self (Some redshift_range) (Some omega_m) ;;
  z1 <- vadd redshift_range (Scalar 1) ;;
  front <- vmul (Scalar 3000) z1 ;;
  diff <- vsub eta_a1 eta_z ;;
  vmul front diff.

Definition distance_modulus (self : SNExercise)
  (redshift_range : option value) (omega_m : option R) (h : option R)
  : outcome value :=
  let redshift_range := or_default redshift_range (Self.redshift_range self) in
  let omega_m := or_default omega_m (Self.omega_m self) in
  let h := or_default h (Self.h self) in
  luminosity_distance <-
    luminosity_distance self (Some redshift_range) (Some omega_m) ;;
  if any_le_0 luminosity_distance
  then Raises (ValueError
         "All luminosity distances must be positive for valid log computation.")
  else
    log_h <- np_log10 h ;;
    log_d <- vlog10 luminosity_distance ;;
    scaled <- vmul (Scalar 5) log_d ;;
    vadd (Scalar (25 - 5 * log_h)) scaled.

(** ** Element-wise reading of values *)

(** The value of the same shape with [g] applied to every element. *)
Definition vmap (g : R -> R) (v : value) : value :=
  match v with
  | Scalar x => Scalar (g x)
  | Array xs => Array (map g xs)
  end.

(** Every element of the value satisfies [P]. *)
Definition vall (P : R -> Prop) (v : value) : Prop :=
  match v with
  | Scalar x => P x
  | Array xs => Forall P xs
  end.

(** ** The closed forms of the spec, on reals *)

(** s = ((1 - Omega_m) / Omega_m)^(1/3). *)
Definition s_spec (omega : R) : R := Rpower ((1 - omega) / omega) (1 / 3).

(** a(z) = 1 / (1 + z). *)
Definition a_spec (z : R) : R := 1 / (1 + z).

(** The multiplicand as the spec writes it, with negative powers of [a]. *)
Definition multiplicand_spec (s a : R) : R :=
  / a ^ 4 - 0.1540 * s * / a ^ 3 + 0.4304 * s ^ 2 * / a ^ 2
  + 0.19097 * s ^ 3 * / a + 0.066941 * s ^ 4.

(** eta = 2 sqrt(s^3 + 1) * multiplicand^(-1/8). *)
Definition eta_spec (s a : R) : R :=
  2 * sqrt (s ^ 3 + 1) * Rpower (multiplicand_spec s a) (-1 / 8).

(** eta as a function of the redshift, for a given density. *)
Definition eta (omega z : R) : R := eta_spec (s_spec omega) (a_spec z).

(** d_L(z) = 3000 (z + 1) (eta(0) - eta(z)). *)
Definition d_L_spec (omega z : R) : R :=
  3000 * (z + 1) * (eta omega 0 - eta omega z).

(** mu = 25 - 5 log10(h) + 5 log10(d_L). *)
Definition mu_spec (h d : R) : R := 25 - 5 * log10 h + 5 * log10 d.

(** Some element of the value satisfies [P]. *)
Definition vany (P : R -> Prop) (v : value) : Prop :=
  match v with
  | Scalar x => P x
  | Array xs => Exists P xs
  end.

(** The two error messages of the source. *)
Definition invalid_density : exn := ValueError "omega_m cannot be zero.".

Definition invalid_distance : exn :=
  ValueError
    "All luminosity distances must be positive for valid log computation.".

(** An instance as the configuration file of the workshop gives it:
    h = 0.7, Omega_m = 0.3, built for the redshift 1. *)
Definition sn : SNExercise :=
  {| Self.redshift_range := Scalar 1; Self.h := 0.7; Self.omega_m := 0.3 |}.

(** An instance built from a configuration whose density is 0. *)
Definition sn_zero_density : SNExercise :=
  {| Self.redshift_range := Scalar 1; Self.h := 0.7; Self.omega_m := 0 |}.

(** Two values of one shape: two scalars, or two arrays of one length. *)
Definition same_shape (v w : value) : Prop :=
  match v, w with
  | Scalar _, Scalar _ => True
  | Array xs, Array ys => List.length xs = List.length ys
  | _, _ => False
  end.

(** ** Construction *)

(** What [SNExercise(redshift_range)] gives: the instance, or the [KeyError]
    of a lookup in the loaded parameters. *)
Inductive construction : Type :=
| Constructed (self : SNExercise)
| KeyError (key : string).

(** [__init__], from the mapping that [yaml.safe_load] returns for the
    parameter file, given by its lookup function. *)
Definition __init__ (parameters : string -> option R) (redshift_range : value)
  : construction :=
  match parameters "h"%string with
  | None => KeyError "h"
  | Some h =>
      match parameters "omega_m"%string with
      | None => KeyError "omega_m"
      | Some omega_m =>
          Constructed {| Self.redshift_range := redshift_range;
                         Self.h := h;
                         Self.omega_m := omega_m |}
      end
  end.

(** The parameter file of the workshop, once loaded: h = 0.7 and
    Omega_m = 0.3. *)
Definition sn_parameters (key : string) : option R :=
  if String.eqb key "h" then Some 0.7
  else if String.eqb key "omega_m" then Some 0.3
  else None.

(** * The binary64 reading *)

(** ** Reference [pow] and [log10]

    The exact value of the function is computed in fixed point with [prec]
    fractional bits, through the series of the inverse hyperbolic tangent
    and of the exponential, and rounded once to the nearest float. *)

Module Libm.

Local Open Scope Z_scope.

Definition prec : Z := 200.

Definition fx_one : Z := Z.shiftl 1 prec.
Definition fx_mul (a b : Z) : Z := Z.shiftr (a * b) prec.
Definition fx_div (a b : Z) : Z := Z.shiftl a prec / b.

(** The sum of t^(2k+1) / (2k+1) over [fuel] terms, [tp] being the current
    power of t. *)
Fixpoint atanh_terms (fuel : nat) (k : Z) (tp t2 acc : Z) : Z :=
  match fuel with
  | O => acc
  | S fuel' =>
      atanh_terms fuel' (k + 1) (fx_mul tp t2) t2 (acc + tp / (2 * k + 1))
  end.

Definition fx_atanh (t : Z) : Z := atanh_terms 80 0 t (fx_mul t t) 0.

(** ln u for u in [3/4, 3/2). *)
Definition fx_ln_reduced (u : Z) : Z :=
  2 * fx_atanh (fx_div (u - fx_one) (u + fx_one)).

Definition fx_ln2 : Z := Eval vm_compute in (2 * fx_atanh (fx_div 1 3)).

(** ln (m * 2^e) for m > 0. *)
Definition fx_ln (m e : Z) : Z :=
  let nb := Z.log2 m in
  let u := Z.shiftl m (prec - nb) in
  if 3 * fx_one <=? 2 * u
  then (e + nb + 1) * fx_ln2 + fx_ln_reduced (Z.shiftr u 1)
  else (e + nb) * fx_ln2 + fx_ln_reduced u.

Fixpoint exp_terms (fuel : nat) (n : Z) (term f acc : Z) : Z :=
  match fuel with
  | O => acc
  | S fuel' =>
      exp_terms fuel' (n + 1) (fx_mul term f / (n + 1)) f (acc + term)
  end.

(** exp w as E * 2^k with E in [1, 2). *)
Definition fx_exp (w : Z) : Z * Z :=
  let k := w / fx_ln2 in
  let f := w - k * fx_ln2 in
  (exp_terms 70 0 fx_one f 0, k).

(** The float nearest to a * 2^(e - prec), for a >= 0: the leading 62 bits
    with a sticky last bit, rounded by the conversion to a float. *)
Definition fx_round (a : Z) (e : Z) : float :=
  if a =? 0 then 0%float
  else
    let nb := Z.log2 a + 1 in
    if 62 <? nb then
      let sh := nb - 62 in
      let top := Z.shiftr a sh in
      let sticky := if Z.land a (Z.shiftl 1 sh - 1) =? 0 then 0 else 1 in
      Z.ldexp (PrimFloat.of_uint63 (Uint63.of_Z (Z.lor top sticky)))
        (e - prec + sh)
    else Z.ldexp (PrimFloat.of_uint63 (Uint63.of_Z a)) (e - prec).

(** A positive finite float as m * 2^e. *)
Definition decompose (x : float) : Z * Z :=
  match Prim2SF x with
  | S754_finite _ m e => (Zpos m, e)
  | _ => (0, 0)
  end.

(** C's [pow(x, y)] on a positive finite base and a finite exponent other
    than 0: infinity on overflow. *)
Definition c_pow (x y : float) : float :=
  let '(mx, ex) := decompose x in
  let '(my, ey) := decompose y in
  let l := fx_ln mx ex in
  let w :=
    if 0 <=? ey then Z.shiftl (my * l) ey else Z.shiftr (my * l) (- ey) in
  let w := if PrimFloat.ltb y 0 then - w else w in
  if 2000 * fx_one <? w then infinity
  else if w <? -2000 * fx_one then 0%float
  else let '(E, k) := fx_exp w in fx_round E k.

(** C's [log10(x)] on a positive finite argument. *)
Definition c_log10 (x : float) : float :=
  let '(mx, ex) := decompose x in
  let l := fx_ln mx ex in
  let ln10 := 3 * fx_ln2 + fx_ln_reduced (fx_one + Z.shiftr fx_one 2) in
  let q := fx_div l ln10 in
  if q <? 0 then PrimFloat.opp (fx_round (- q) 0) else fx_round q 0.

End Libm.

(** ** The methods on binary64 floats

    The redshift, the density and h are Python floats (an integer literal
    of the source such as the [0] of [redshift_range=0] acts as the float of
    the same value in every operation it meets).  [calculate_parameter_s] and
    [calculate_scale_factor] compute with Python's float operators; from
    [np.sqrt] on, [conformal_time] holds a numpy float64, whose operators
    never raise. *)

Module Binary64.

Local Open Scope float_scope.

Inductive exception : Type :=
| ValueError (msg : string)
| ZeroDivisionError
| OverflowError.

(** What a call does: it returns a float, raises, or goes on with complex
    numbers (a negative float to a fractional power), which are not
    followed. *)
Inductive outcome (A : Type) : Type :=
| Returns (a : A)
| Raises (e : exception)
| Complex.

Arguments Returns {A} a.
Arguments Raises {A} e.
Arguments Complex {A}.

Definition bind {A B : Type} (m : outcome A) (k : A -> outcome B) : outcome B :=
  match m with
  | Returns a => k a
  | Raises e => Raises e
  | Complex => Complex
  end.

Local Notation "x <~ m ;; k" := (bind m (fun x => k))
  (at level 61, m at next level, right associativity).

(** [y == floor(y)] on a finite float. *)
Definition is_integer (y : float) : bool :=
  match Prim2SF y with
  | S754_zero _ => true
  | S754_finite _ m e =>
      if (0 <=? e)%Z then true
      else (Z.land (Zpos m) (Z.shiftl 1 (- e) - 1) =? 0)%Z
  | _ => false
  end.

(** [fmod(fabs(y), 2.0) == 1.0]. *)
Definition is_odd_integer (y : float) : bool :=
  match Prim2SF y with
  | S754_finite _ m e =>
      if (0 <=? e)%Z then (e =? 0)%Z && Z.odd (Zpos m)
      else is_integer y && Z.odd (Z.shiftr (Zpos m) (- e))
  | _ => false
  end.

(** [x / y] on Python floats. *)
Definition py_div (x y : float) : outcome float :=
  if y =? 0 then Raises ZeroDivisionError else Returns (x / y).

(** [iv ** iw] on Python floats, case by case as CPython's [float_pow]
    sorts them out before it calls C's [pow] and turns an infinite result
    into [OverflowError]. *)
Definition py_pow (iv iw : float) : outcome float :=
  if iw =? 0 then Returns 1
  else if is_nan iv then Returns iv
  else if is_nan iw then Returns (if iv =? 1 then 1 else iw)
  else if is_infinity iw then
    if PrimFloat.abs iv =? 1 then Returns 1
    else if Bool.eqb (0 <? iw) (1 <? PrimFloat.abs iv) then Returns infinity
    else Returns 0
  else if is_infinity iv then
    if 0 <? iw then Returns (if is_odd_integer iw then iv else PrimFloat.abs iv)
    else Returns (if is_odd_integer iw && (iv <? 0) then -0 else 0)
  else if iv =? 0 then
    if iw <? 0 then Raises ZeroDivisionError
    else Returns (if is_odd_integer iw then iv else 0)
  else if (iv <? 0) && negb (is_integer iw) then Complex
  else
    let negate_result := (iv <? 0) && is_odd_integer iw in
    let iv := PrimFloat.abs iv in
    if iv =? 1 then Returns (if negate_result then -1 else 1)
    else
      let ix := Libm.c_pow iv iw in
      if is_infinity ix then Raises OverflowError
      else Returns (if negate_result then - ix else ix).

(** [np.log10(x)]: NaN below 0, minus infinity at 0, no exception. *)
Definition np_log10 (x : float) : float :=
  if is_nan x then x
  else if x <? 0 then nan
  else if x =? 0 then neg_infinity
  else if is_infinity x then x
  else Libm.c_log10 x.

Record SNExercise : Type := {
  redshift_range : float;
  h : float;
  omega_m : float
}.

(** [not omega_m]: [None] and a zero of either sign are falsy. *)
Definition py_not (o : option float) : bool :=
  match o with
  | None => true
  | Some x => x =? 0
  end.

Definition calculate_parameter_s (self : SNExercise) (omega_m : option float)
  : outcome float :=
  let omega_m :=
    if py_not omega_m then Binary64.omega_m self
    else or_default omega_m (Binary64.omega_m self) in
  if omega_m =? 0 then Raises (ValueError "omega_m cannot be zero.")
  else
    ratio <~ py_div (1 - omega_m) omega_m ;;
    py_pow ratio (1 / 3).

Definition calculate_scale_factor (self : SNExercise)
  (redshift_range : option float) : outcome float :=
  let redshift_range :=
    or_default redshift_range (Binary64.redshift_range self) in
  py_div 1 (1 + redshift_range).

Definition conformal_time (self : SNExercise)
  (redshift_range : option float) (omega_m : option float) : outcome float :=
  let redshift_range :=
    or_default redshift_range (Binary64.redshift_range self) in
  let omega_m := or_default omega_m (Binary64.omega_m self) in
  s <~ calculate_parameter_s self (Some omega_m) ;;
  a <~ calculate_scale_factor self (Some redshift_range) ;;
  s3 <~ py_pow s 3 ;;
  let multiplier := 2 * PrimFloat.sqrt (s3 + 1) in
  a4 <~ py_pow a 4 ;;
  t1 <~ py_div 1 a4 ;;
  a3 <~ py_pow a 3 ;;
  t2 <~ py_div (0.1540 * s) a3 ;;
  s2 <~ py_pow s 2 ;;
  a2 <~ py_pow a 2 ;;
  t3 <~ py_div (0.4304 * s2) a2 ;;
  s3' <~ py_pow s 3 ;;
  t4 <~ py_div (0.19097 * s3') a ;;
  s4 <~ py_pow s 4 ;;
  let multiplicand := t1 - t2 + t3 + t4 + 0.066941 * s4 in
  p <~ py_pow multiplicand (-1 / 8) ;;
  Returns (multiplier * p).

Definition luminosity_distance (self : SNExercise)
  (redshift_range : option float) (omega_m : option float) : outcome float :=
  let redshift_range :=
    or_default redshift_range (Binary64.redshift_range self) in
  let omega_m := or_default omega_m (Binary64.omega_m self) in
  eta_a1 <~ conformal_time self (Some 0) (Some omega_m) ;;
  eta_z <~ conformal_time self (Some redshift_range) (Some omega_m) ;;
  Returns (3000 * (redshift_range + 1) * (eta_a1 - eta_z)).

Definition distance_modulus (self : SNExercise)
  (redshift_range : option float) (omega_m : option float) (h : option float)
  : outcome float :=
  let redshift_range :=
    or_default redshift_range (Binary64.redshift_range self) in
  let omega_m := or_default omega_m (Binary64.omega_m self) in
  let h := or_default h (Binary64.h self) in
  luminosity_distance <~
    luminosity_distance self (Some redshift_range) (Some omega_m) ;;
  if luminosity_distance <=? 0
  then Raises (ValueError
         "All luminosity distances must be positive for valid log computation.")
  else Returns (25 - 5 * np_log10 h + 5 * np_log10 luminosity_distance).

(** The instance of the workshop's configuration: h = 0.7, Omega_m = 0.3,
    built for the redshift 1. *)
Definition sn : SNExercise :=
  {| redshift_range := 1; h := 0.7; omega_m := 0.3 |}.

End Binary64.

(** * Properties *)

(** ** Boolean comparisons *)

Lemma Req_bool_true (x y : R) : x = y -> Req_bool x y = true.
Proof. intros E. unfold Req_bool. destruct (Req_dec_T x y); [reflexivity | contradiction]. Qed.

Lemma Req_bool_false (x y : R) : x <> y -> Req_bool x y = false.
Proof. intros E. unfold Req_bool. destruct (Req_dec_T x y); [contradiction | reflexivity]. Qed.

Lemma Rlt_bool_true (x y : R) : x < y -> Rlt_bool x y = true.
Proof. intros E. unfold Rlt_bool. destruct (Rlt_dec x y); [reflexivity | contradiction]. Qed.

Lemma Rlt_bool_false (x y : R) : y <= x -> Rlt_bool x y = false.
Proof. intros E. unfold Rlt_bool. destruct (Rlt_dec x y); [lra | reflexivity]. Qed.

Lemma Rle_bool_true (x y : R) : x <= y -> Rle_bool x y = true.
Proof. intros E. unfold Rle_bool. destruct (Rle_dec x y); [reflexivity | contradiction]. Qed.

Lemma Rle_bool_false (x y : R) : y < x -> Rle_bool x y = false.
Proof. intros E. unfold Rle_bool. destruct (Rle_dec x y); [lra | reflexivity]. Qed.

Lemma Req_bool_spec (x y : R) : Req_bool x y = true <-> x = y.
Proof.
  unfold Req_bool. destruct (Req_dec_T x y); split; intros; auto; discriminate.
Qed.

Lemma Rle_bool_spec (x y : R) : Rle_bool x y = true <-> x <= y.
Proof.
  unfold Rle_bool. destruct (Rle_dec x y); split; intros; auto; discriminate.
Qed.

(** ** Scalar operations inside their domain *)

Lemma div_ok (x y : R) : y <> 0 -> div x y = Returns (x / y).
Proof. intros Hy. unfold div. rewrite Req_bool_false by assumption. reflexivity. Qed.

Lemma pow_float_ok (x y : R) : 0 < x -> pow_float x y = Returns (Rpower x y).
Proof. intros Hx. unfold pow_float. rewrite Rlt_bool_true by assumption. reflexivity. Qed.

Lemma np_sqrt_ok (x : R) : 0 <= x -> np_sqrt x = Returns (sqrt x).
Proof. intros Hx. unfold np_sqrt. rewrite Rle_bool_true by assumption. reflexivity. Qed.

Lemma np_log10_ok (x : R) : 0 < x -> np_log10 x = Returns (log10 x).
Proof. intros Hx. unfold np_log10. rewrite Rlt_bool_true by assumption. reflexivity. Qed.

(** ** Element-wise operations on values of one shape *)

Lemma vmap_id (v : value) : vmap (fun x => x) v = v.
Proof. destruct v; simpl; [reflexivity | now rewrite map_id]. Qed.

Lemma vmap_vmap (f g : R -> R) (v : value) :
  vmap f (vmap g v) = vmap (fun x => f (g x)) v.
Proof. destruct v; simpl; [reflexivity | now rewrite map_map]. Qed.

Lemma vmap_ext (f g : R -> R) (v : value) :
  vall (fun x => f x = g x) v -> vmap f v = vmap g v.
Proof.
  destruct v as [x | xs]; simpl; intros Hv.
  - now rewrite Hv.
  - f_equal. apply map_ext_Forall. exact Hv.
Qed.

Lemma vall_impl (P Q : R -> Prop) (v : value) :
  (forall x, P x -> Q x) -> vall P v -> vall Q v.
Proof.
  intros HPQ. destruct v as [x | xs]; simpl.
  - apply HPQ.
  - apply Forall_impl. exact HPQ.
Qed.

Lemma vall_vmap (P : R -> Prop) (g : R -> R) (v : value) :
  vall P (vmap g v) <-> vall (fun x => P (g x)) v.
Proof.
  destruct v as [x | xs]; simpl; [tauto |].
  rewrite Forall_map. tauto.
Qed.

Lemma mapM_ok (f : R -> outcome R) (g g' : R -> R) (xs : list R) :
  Forall (fun x => f (g x) = Returns (g' x)) xs ->
  mapM f (map g xs) = Returns (map g' xs).
Proof.
  induction 1 as [| x xs Hx _ IH]; simpl; [reflexivity |].
  rewrite Hx. simpl. rewrite IH. reflexivity.
Qed.

Lemma zipM_ok (f : R -> R -> outcome R) (g1 g2 g' : R -> R) (xs : list R) :
  Forall (fun x => f (g1 x) (g2 x) = Returns (g' x)) xs ->
  zipM f (map g1 xs) (map g2 xs) = Returns (map g' xs).
Proof.
  induction 1 as [| x xs Hx _ IH]; simpl; [reflexivity |].
  rewrite Hx. simpl. rewrite IH. reflexivity.
Qed.

Lemma ufunc1_ok (f : R -> outcome R) (g g' : R -> R) (v : value) :
  vall (fun x => f (g x) = Returns (g' x)) v ->
  ufunc1 f (vmap g v) = Returns (vmap g' v).
Proof.
  destruct v as [x | xs]; simpl; intros Hv.
  - now rewrite Hv.
  - now rewrite (mapM_ok f g g' xs Hv).
Qed.

Lemma ufunc2_SV_ok (f : R -> R -> outcome R) (c : R) (g g' : R -> R) (v : value) :
  vall (fun x => f c (g x) = Returns (g' x)) v ->
  ufunc2 f (Scalar c) (vmap g v) = Returns (vmap g' v).
Proof.
  destruct v as [x | xs]; simpl; intros Hv.
  - now rewrite Hv.
  - now rewrite (mapM_ok (f c) g g' xs Hv).
Qed.

Lemma ufunc2_VS_ok (f : R -> R -> outcome R) (c : R) (g g' : R -> R) (v : value) :
  vall (fun x => f (g x) c = Returns (g' x)) v ->
  ufunc2 f (vmap g v) (Scalar c) = Returns (vmap g' v).
Proof.
  destruct v as [x | xs]; simpl; intros Hv.
  - now rewrite Hv.
  - now rewrite (mapM_ok (fun x => f x c) g g' xs Hv).
Qed.

Lemma ufunc2_VV_ok (f : R -> R -> outcome R) (g1 g2 g' : R -> R) (v : value) :
  vall (fun x => f (g1 x) (g2 x) = Returns (g' x)) v ->
  ufunc2 f (vmap g1 v) (vmap g2 v) = Returns (vmap g' v).
Proof.
  destruct v as [x | xs]; simpl; intros Hv.
  - now rewrite Hv.
  - rewrite !length_map, Nat.eqb_refl.
    now rewrite (zipM_ok f g1 g2 g' xs Hv).
Qed.

Lemma vall_trivial (P : R -> Prop) (v : value) : (forall x, P x) -> vall P v.
Proof.
  intros HP. destruct v as [x | xs]; simpl; [apply HP |].
  apply Forall_forall. intros y _. apply HP.
Qed.

(** The total operators. *)

Lemma lift2_SV (op : R -> R -> R) (c : R) (g : R -> R) (v : value) :
  lift2 op (Scalar c) (vmap g v) = Returns (vmap (fun x => op c (g x)) v).
Proof. apply ufunc2_SV_ok, vall_trivial. reflexivity. Qed.

Lemma lift2_VS (op : R -> R -> R) (c : R) (g : R -> R) (v : value) :
  lift2 op (vmap g v) (Scalar c) = Returns (vmap (fun x => op (g x) c) v).
Proof. apply ufunc2_VS_ok, vall_trivial. reflexivity. Qed.

Lemma lift2_VV (op : R -> R -> R) (g1 g2 : R -> R) (v : value) :
  lift2 op (vmap g1 v) (vmap g2 v)
  = Returns (vmap (fun x => op (g1 x) (g2 x)) v).
Proof. apply ufunc2_VV_ok, vall_trivial. reflexivity. Qed.

Lemma vpow_V (n : nat) (g : R -> R) (v : value) :
  vpow (vmap g v) n = Returns (vmap (fun x => g x ^ n) v).
Proof. apply ufunc1_ok, vall_trivial. reflexivity. Qed.

(** The partial operators, inside their domain. *)

Lemma vdiv_SV (c : R) (g : R -> R) (v : value) :
  vall (fun x => g x <> 0) v ->
  vdiv (Scalar c) (vmap g v) = Returns (vmap (fun x => c / g x) v).
Proof.
  intros Hv. apply ufunc2_SV_ok. revert Hv. apply vall_impl.
  intros x Hx. now apply div_ok.
Qed.

Lemma vpow_float_V (y : R) (g : R -> R) (v : value) :
  vall (fun x => 0 < g x) v ->
  vpow_float (vmap g v) y = Returns (vmap (fun x => Rpower (g x) y) v).
Proof.
  intros Hv. apply (ufunc1_ok (fun x => pow_float x y)). revert Hv. apply vall_impl.
  intros x Hx. now apply pow_float_ok.
Qed.

Lemma vlog10_V (g : R -> R) (v : value) :
  vall (fun x => 0 < g x) v ->
  vlog10 (vmap g v) = Returns (vmap (fun x => log10 (g x)) v).
Proof.
  intros Hv. apply ufunc1_ok. revert Hv. apply vall_impl.
  intros x Hx. now apply np_log10_ok.
Qed.

(** ** Real-analysis facts behind the formulas *)

Lemma sqr_pos (x : R) : x <> 0 -> 0 < x ^ 2.
Proof.
  intros Hx. pose proof (pow2_ge_0 x) as H0.
  assert (x ^ 2 <> 0) by (apply pow_nonzero; exact Hx). lra.
Qed.

(** The quartic under the power is positive away from [X = 0]. *)
Lemma quartic_pos (X s : R) :
  X <> 0 -> 0 < s ->
  0 < X ^ 4 - 0.1540 * s * X ^ 3 + 0.4304 * s ^ 2 * X ^ 2
      + 0.19097 * s ^ 3 * X + 0.066941 * s ^ 4.
Proof.
  intros HX Hs.
  pose proof (pow2_ge_0 (X - 0.077 * s)) as H1.
  pose proof (pow2_ge_0 (X + 0.5 * s)) as H2.
  pose proof (pow2_ge_0 X) as H3.
  assert (HX2 : 0 < X ^ 2) by (apply sqr_pos; exact HX).
  assert (Hs2 : 0 < s ^ 2) by (apply sqr_pos; lra).
  assert (A : 0 < X ^ 2 * ((X - 0.077 * s) ^ 2 + 0.2 * s ^ 2)).
  { apply Rmult_lt_0_compat; lra. }
  assert (B : 0 <= s ^ 2 * (0.19097 * (X + 0.5 * s) ^ 2
                            + 0.033501 * X ^ 2 + 0.0191985 * s ^ 2)).
  { apply Rmult_le_pos; lra. }
  assert (E : X ^ 4 - 0.1540 * s * X ^ 3 + 0.4304 * s ^ 2 * X ^ 2
              + 0.19097 * s ^ 3 * X + 0.066941 * s ^ 4
              = X ^ 2 * ((X - 0.077 * s) ^ 2 + 0.2 * s ^ 2)
                + s ^ 2 * (0.19097 * (X + 0.5 * s) ^ 2
                           + 0.033501 * X ^ 2 + 0.0191985 * s ^ 2)) by nra.
  lra.
Qed.

(** The multiplicand of the spec is the quartic in [1 / a]. *)
Lemma multiplicand_spec_quartic (s a : R) :
  multiplicand_spec s a
  = (/ a) ^ 4 - 0.1540 * s * (/ a) ^ 3 + 0.4304 * s ^ 2 * (/ a) ^ 2
    + 0.19097 * s ^ 3 * (/ a) + 0.066941 * s ^ 4.
Proof. unfold multiplicand_spec. rewrite !pow_inv. reflexivity. Qed.

Lemma multiplicand_spec_pos (s a : R) :
  a <> 0 -> 0 < s -> 0 < multiplicand_spec s a.
Proof.
  intros Ha Hs. rewrite multiplicand_spec_quartic.
  apply quartic_pos; [apply Rinv_neq_0_compat; exact Ha | exact Hs].
Qed.

(** The expression of the source, with its divisions, is the multiplicand of
    the spec. *)
Lemma multiplicand_code (s a : R) :
  1 / a ^ 4 - 0.1540 * s / a ^ 3 + 0.4304 * s ^ 2 / a ^ 2
  + 0.19097 * s ^ 3 / a + 0.066941 * s ^ 4
  = multiplicand_spec s a.
Proof. unfold multiplicand_spec, Rdiv. lra. Qed.

Lemma a_spec_neq_0 (z : R) : z <> -1 -> a_spec z <> 0.
Proof.
  intros Hz. unfold a_spec, Rdiv. rewrite Rmult_1_l.
  apply Rinv_neq_0_compat. lra.
Qed.

Lemma s_spec_pos (omega : R) : 0 < s_spec omega.
Proof. unfold s_spec, Rpower. apply exp_pos. Qed.

(** ** The methods inside their domain *)

Section Methods.

Variable self : SNExercise.

Lemma calculate_parameter_s_nonzero (omega : R) :
  omega <> 0 ->
  calculate_parameter_s self (Some omega)
  = pow_float ((1 - omega) / omega) (1 / 3).
Proof.
  intros Ho. unfold calculate_parameter_s, py_not.
  rewrite (Req_bool_false omega 0 Ho). simpl or_default. cbv zeta.
  rewrite (Req_bool_false omega 0 Ho).
  rewrite div_ok by exact Ho. reflexivity.
Qed.

Lemma calculate_parameter_s_ok (omega : R) :
  0 < omega < 1 ->
  calculate_parameter_s self (Some omega) = Returns (s_spec omega).
Proof.
  intros [H0 H1]. rewrite calculate_parameter_s_nonzero by lra.
  apply pow_float_ok. apply Rdiv_lt_0_compat; lra.
Qed.

Lemma calculate_scale_factor_ok (z : value) :
  vall (fun x => x <> -1) z ->
  calculate_scale_factor self (Some z) = Returns (vmap a_spec z).
Proof.
  intros Hz. unfold calculate_scale_factor. simpl or_default.
  unfold vadd. rewrite <- (vmap_id z) at 1. rewrite lift2_SV. cbn [bind].
  rewrite vdiv_SV; [reflexivity |].
  revert Hz. apply vall_impl. intros x Hx. lra.
Qed.

Lemma conformal_time_ok (z : value) (omega : R) :
  0 < omega < 1 -> vall (fun x => x <> -1) z ->
  conformal_time self (Some z) (Some omega) = Returns (vmap (eta omega) z).
Proof.
  intros Ho Hz. unfold conformal_time. simpl or_default.
  rewrite calculate_parameter_s_ok by exact Ho. cbn [bind].
  rewrite calculate_scale_factor_ok by exact Hz. cbn [bind].
  pose proof (s_spec_pos omega) as Hs. set (s := s_spec omega) in *.
  assert (Ha : vall (fun x => a_spec x <> 0) z).
  { revert Hz. apply vall_impl. exact a_spec_neq_0. }
  rewrite np_sqrt_ok by (assert (0 < s ^ 3) by (apply pow_lt; exact Hs); lra).
  cbn [bind]. unfold vadd, vsub, vmul.
  rewrite vpow_V. cbn [bind].
  rewrite vdiv_SV
    by (revert Ha; apply vall_impl; intros x Hx; apply pow_nonzero; exact Hx).
  cbn [bind]. rewrite vpow_V. cbn [bind].
  rewrite vdiv_SV
    by (revert Ha; apply vall_impl; intros x Hx; apply pow_nonzero; exact Hx).
  cbn [bind]. rewrite vpow_V. cbn [bind].
  rewrite vdiv_SV
    by (revert Ha; apply vall_impl; intros x Hx; apply pow_nonzero; exact Hx).
  cbn [bind]. rewrite vdiv_SV by exact Ha. cbn [bind].
  rewrite lift2_VV. cbn [bind]. rewrite lift2_VV. cbn [bind].
  rewrite lift2_VV. cbn [bind]. rewrite lift2_VS. cbn [bind].
  rewrite vpow_float_V.
  - cbn [bind]. rewrite lift2_SV. f_equal. apply vmap_ext.
    apply vall_trivial. intros x. unfold eta, eta_spec. fold s.
    rewrite multiplicand_code. reflexivity.
  - revert Ha. apply vall_impl. intros x Hx.
    rewrite multiplicand_code. apply multiplicand_spec_pos; assumption.
Qed.

End Methods.

(** ** Monotonicity of the fit *)

(** The quartic is strictly increasing on positive arguments. *)
Lemma quartic_incr (x y s : R) :
  0 < x -> x < y -> 0 < s ->
  x ^ 4 - 0.1540 * s * x ^ 3 + 0.4304 * s ^ 2 * x ^ 2
  + 0.19097 * s ^ 3 * x + 0.066941 * s ^ 4
  < y ^ 4 - 0.1540 * s * y ^ 3 + 0.4304 * s ^ 2 * y ^ 2
    + 0.19097 * s ^ 3 * y + 0.066941 * s ^ 4.
Proof.
  intros Hx Hxy Hs.
  set (u := x + y).
  set (B := u * (x ^ 2 + y ^ 2) - 0.1540 * s * (x ^ 2 + x * y + y ^ 2)
            + 0.4304 * s ^ 2 * u + 0.19097 * s ^ 3).
  assert (Hu : 0 < u) by (unfold u; lra).
  assert (Hs2 : 0 < s ^ 2) by (apply sqr_pos; lra).
  assert (Hs3 : 0 < s ^ 3) by (apply pow_lt; exact Hs).
  assert (Hxy0 : 0 < x * y) by (apply Rmult_lt_0_compat; lra).
  assert (H1 : 0 <= u * ((x - y) ^ 2 / 2)).
  { apply Rmult_le_pos; [lra |]. pose proof (pow2_ge_0 (x - y)). lra. }
  assert (H2 : 0 <= 0.1540 * s * (x * y)).
  { apply Rmult_le_pos; [lra | lra]. }
  assert (H3 : 0 < u * (0.5 * (u - 0.154 * s) ^ 2 + 0.418542 * s ^ 2)).
  { apply Rmult_lt_0_compat; [exact Hu |].
    pose proof (pow2_ge_0 (u - 0.154 * s)). lra. }
  assert (EB : B = u * ((x - y) ^ 2 / 2) + 0.1540 * s * (x * y)
                   + u * (0.5 * (u - 0.154 * s) ^ 2 + 0.418542 * s ^ 2)
                   + 0.19097 * s ^ 3).
  { unfold B, u. nra. }
  assert (HB : 0 < B) by lra.
  assert (HD : 0 < (y - x) * B) by (apply Rmult_lt_0_compat; lra).
  assert (ED : (y - x) * B
               = (y ^ 4 - 0.1540 * s * y ^ 3 + 0.4304 * s ^ 2 * y ^ 2
                  + 0.19097 * s ^ 3 * y + 0.066941 * s ^ 4)
                 - (x ^ 4 - 0.1540 * s * x ^ 3 + 0.4304 * s ^ 2 * x ^ 2
                    + 0.19097 * s ^ 3 * x + 0.066941 * s ^ 4)).
  { unfold B, u. nra. }
  lra.
Qed.

Lemma inv_a_spec (z : R) : z <> -1 -> / a_spec z = 1 + z.
Proof.
  intros Hz. unfold a_spec, Rdiv. rewrite Rmult_1_l. apply Rinv_inv.
Qed.

(** The multiplicand grows with the redshift beyond the singularity. *)
Lemma multiplicand_incr (s z1 z2 : R) :
  0 < s -> -1 < z1 -> z1 < z2 ->
  multiplicand_spec s (a_spec z1) < multiplicand_spec s (a_spec z2).
Proof.
  intros Hs H1 H12. rewrite !multiplicand_spec_quartic.
  rewrite !inv_a_spec by lra. apply quartic_incr; lra.
Qed.

(** A negative real power is strictly decreasing on positive bases. *)
Lemma Rpower_neg_decr (x y p : R) :
  0 < x -> x < y -> p < 0 -> Rpower y p < Rpower x p.
Proof.
  intros Hx Hxy Hp. unfold Rpower. apply exp_increasing.
  assert (Hln : ln x < ln y) by (apply ln_increasing; assumption).
  nra.
Qed.

(** Conformal time decreases with the redshift. *)
Lemma eta_decr (omega z1 z2 : R) :
  -1 < z1 -> z1 < z2 -> eta omega z2 < eta omega z1.
Proof.
  intros H1 H12. unfold eta, eta_spec.
  pose proof (s_spec_pos omega) as Hs. set (s := s_spec omega) in *.
  assert (Hk : 0 < 2 * sqrt (s ^ 3 + 1)).
  { assert (0 < s ^ 3) by (apply pow_lt; exact Hs).
    assert (0 < sqrt (s ^ 3 + 1)) by (apply sqrt_lt_R0; lra). lra. }
  apply Rmult_lt_compat_l; [exact Hk |].
  apply Rpower_neg_decr; [| | lra].
  - apply multiplicand_spec_pos; [apply a_spec_neq_0; lra | exact Hs].
  - apply multiplicand_incr; assumption.
Qed.

Lemma d_L_spec_0 (omega : R) : d_L_spec omega 0 = 0.
Proof. unfold d_L_spec. lra. Qed.

Lemma d_L_spec_pos (omega z : R) : 0 < z -> 0 < d_L_spec omega z.
Proof.
  intros Hz. unfold d_L_spec.
  pose proof (eta_decr omega 0 z ltac:(lra) Hz) as He.
  apply Rmult_lt_0_compat; [lra | lra].
Qed.

Lemma d_L_spec_neg (omega z : R) : -1 < z -> z < 0 -> d_L_spec omega z < 0.
Proof.
  intros H1 Hz. unfold d_L_spec.
  pose proof (eta_decr omega z 0 H1 Hz) as He.
  assert (0 < 3000 * (z + 1) * (eta omega z - eta omega 0)).
  { apply Rmult_lt_0_compat; lra. }
  lra.
Qed.

(** The luminosity distance grows with the redshift from [z = 0] on. *)
Lemma d_L_spec_incr (omega z1 z2 : R) :
  0 <= z1 -> z1 < z2 -> d_L_spec omega z1 < d_L_spec omega z2.
Proof.
  intros H1 H12. unfold d_L_spec.
  pose proof (eta_decr omega z1 z2 ltac:(lra) H12) as He.
  assert (H0 : eta omega z1 <= eta omega 0).
  { destruct (Req_dec z1 0) as [-> | Hne]; [lra |].
    apply Rlt_le, eta_decr; lra. }
  set (e0 := eta omega 0) in *. set (e1 := eta omega z1) in *.
  set (e2 := eta omega z2) in *.
  assert (Ha : (z1 + 1) * (e0 - e1) <= (z1 + 1) * (e0 - e2)).
  { apply Rmult_le_compat_l; lra. }
  assert (Hb : (z1 + 1) * (e0 - e2) < (z2 + 1) * (e0 - e2)).
  { apply Rmult_lt_compat_r; lra. }
  lra.
Qed.

(** ** Luminosity distance and distance modulus inside their domain *)

Section Distances.

Variable self : SNExercise.

Lemma luminosity_distance_ok (z : value) (omega : R) :
  0 < omega < 1 -> vall (fun x => x <> -1) z ->
  luminosity_distance self (Some z) (Some omega)
  = Returns (vmap (d_L_spec omega) z).
Proof.
  intros Ho Hz. unfold luminosity_distance. simpl or_default.
  rewrite (conformal_time_ok self (Scalar 0) omega Ho)
    by (simpl; lra).
  cbn [bind vmap].
  rewrite conformal_time_ok by assumption. cbn [bind].
  unfold vadd, vmul, vsub.
  rewrite <- (vmap_id z) at 1. rewrite lift2_VS. cbn [bind].
  rewrite lift2_SV. cbn [bind]. rewrite lift2_SV. cbn [bind].
  rewrite lift2_VV. reflexivity.
Qed.

(** The defaults resolved by [distance_modulus] are those its callee would
    resolve. *)
Lemma luminosity_distance_resolved (z : option value) (omega : option R) :
  luminosity_distance self
    (Some (or_default z (Self.redshift_range self)))
    (Some (or_default omega (Self.omega_m self)))
  = luminosity_distance self z omega.
Proof. reflexivity. Qed.

Lemma any_le_0_true (v : value) :
  vany (fun d => d <= 0) v -> any_le_0 v = true.
Proof.
  destruct v as [x | xs]; simpl.
  - apply Rle_bool_true.
  - intros Hex. apply existsb_exists. apply Exists_exists in Hex.
    destruct Hex as [d [Hin Hd]]. exists d. split; [exact Hin |].
    now apply Rle_bool_true.
Qed.

Lemma any_le_0_false (v : value) :
  vall (fun d => 0 < d) v -> any_le_0 v = false.
Proof.
  destruct v as [x | xs]; simpl.
  - apply Rle_bool_false.
  - intros Hall. apply not_true_is_false. intros Hex.
    apply existsb_exists in Hex. destruct Hex as [d [Hin Hd]].
    rewrite Forall_forall in Hall. specialize (Hall d Hin).
    apply Rle_bool_spec in Hd. lra.
Qed.

Lemma distance_modulus_raises (z : option value) (omega h : option R)
  (v : value) :
  luminosity_distance self z omega = Returns v ->
  vany (fun d => d <= 0) v ->
  distance_modulus self z omega h = Raises invalid_distance.
Proof.
  intros Hv Hany. unfold distance_modulus.
  rewrite luminosity_distance_resolved, Hv. cbn [bind].
  rewrite any_le_0_true by exact Hany. reflexivity.
Qed.

Lemma distance_modulus_ok (z : option value) (omega h : option R)
  (v : value) :
  luminosity_distance self z omega = Returns v ->
  vall (fun d => 0 < d) v ->
  0 < or_default h (Self.h self) ->
  distance_modulus self z omega h
  = Returns (vmap (mu_spec (or_default h (Self.h self))) v).
Proof.
  intros Hv Hall Hh. unfold distance_modulus.
  rewrite luminosity_distance_resolved, Hv. cbn [bind].
  rewrite any_le_0_false by exact Hall.
  rewrite np_log10_ok by exact Hh. cbn [bind].
  rewrite <- (vmap_id v) at 1. rewrite vlog10_V by exact Hall. cbn [bind].
  unfold vmul, vadd. rewrite lift2_SV. cbn [bind]. rewrite lift2_SV.
  reflexivity.
Qed.

End Distances.

Lemma eta_pos (omega z : R) : 0 < eta omega z.
Proof.
  unfold eta, eta_spec.
  pose proof (s_spec_pos omega) as Hs. set (s := s_spec omega) in *.
  assert (0 < s ^ 3) by (apply pow_lt; exact Hs).
  assert (0 < sqrt (s ^ 3 + 1)) by (apply sqrt_lt_R0; lra).
  apply Rmult_lt_0_compat; [lra |].
  unfold Rpower. apply exp_pos.
Qed.

(** * The claims *)

(** A redshift in the range where the binary64 run has no overflow: no
    element is -1 and every element is at most 1e50 in absolute value. *)
Lemma vall_range_neq (z : value) :
  vall (fun x => x <> -1 /\ -1e50 <= x <= 1e50) z ->
  vall (fun x => x <> -1) z.
Proof. apply vall_impl. intros x [Hx _]. exact Hx. Qed.

(** ** Validation errors *)

(** C1.  The spec has [calculate_parameter_s(0)] raise the invalid-density
    error on every instance.  On the instance [sn], whose stored density is
    0.3, the call with the argument 0 raises nothing: the test
    [if not omega_m] takes the zero for a missing argument, the stored 0.3
    replaces it, and the call returns the cube root of 0.7 / 0.3. *)
Theorem calculate_parameter_s_zero_argument_returns :
  calculate_parameter_s sn (Some 0) = Returns (s_spec 0.3)
  /\ calculate_parameter_s sn (Some 0) <> Raises invalid_density.
Proof.
  assert (E : calculate_parameter_s sn (Some 0) = Returns (s_spec 0.3)).
  { unfold calculate_parameter_s, py_not.
    rewrite (Req_bool_true 0 0 eq_refl). simpl Self.omega_m. cbv zeta.
    rewrite (Req_bool_false 0.3 0) by lra.
    rewrite div_ok by lra. cbn [bind].
    apply pow_float_ok. apply Rdiv_lt_0_compat; lra. }
  split; [exact E | rewrite E; discriminate].
Qed.

Lemma pow_float_never_raises (x y : R) (e : exn) : pow_float x y <> Raises e.
Proof.
  unfold pow_float.
  destruct (Rlt_bool 0 x); [discriminate |].
  destruct (Req_bool x 0); [| discriminate].
  destruct (Rlt_bool 0 y); discriminate.
Qed.

Lemma calculate_parameter_s_falsy (self : SNExercise) (o : option R) :
  py_not o = true ->
  calculate_parameter_s self o
  = if Req_bool (Self.omega_m self) 0 then Raises invalid_density
    else pow_float ((1 - Self.omega_m self) / Self.omega_m self) (1 / 3).
Proof.
  intros Hf. unfold calculate_parameter_s. rewrite Hf. cbv zeta.
  destruct (Req_bool (Self.omega_m self) 0) eqn:E; [reflexivity |].
  rewrite div_ok; [reflexivity |].
  intros H0. apply Req_bool_true in H0. congruence.
Qed.

(** C3.  A falsy [omega_m] argument ([None], 0 or 0.0) is discarded: the call
    gives what the call on the stored density gives, it raises the
    invalid-density error exactly when the stored density is 0, and with a
    stored density other than 0 it is the cube-root computation on the
    stored density. *)
Theorem calculate_parameter_s_falsy_uses_stored
  (self : SNExercise) (o : option R) :
  py_not o = true ->
  calculate_parameter_s self o
  = calculate_parameter_s self (Some (Self.omega_m self))
  /\ (calculate_parameter_s self o = Raises invalid_density
      <-> Self.omega_m self = 0)
  /\ (Self.omega_m self <> 0 ->
      calculate_parameter_s self o
      = pow_float ((1 - Self.omega_m self) / Self.omega_m self) (1 / 3)).
Proof.
  intros Hf. rewrite (calculate_parameter_s_falsy self o Hf).
  destruct (Req_bool (Self.omega_m self) 0) eqn:E.
  - assert (H0 : Self.omega_m self = 0) by (apply Req_bool_spec; exact E).
    split; [| split].
    + rewrite (calculate_parameter_s_falsy self (Some (Self.omega_m self)))
        by (simpl; exact E).
      rewrite E. reflexivity.
    + tauto.
    + intros Hne. contradiction.
  - assert (H0 : Self.omega_m self <> 0).
    { intros H0. apply Req_bool_true in H0. congruence. }
    split; [| split].
    + rewrite calculate_parameter_s_nonzero by exact H0. reflexivity.
    + split; [intros Hr | intros Hz; contradiction].
      exfalso. exact (pow_float_never_raises _ _ _ Hr).
    + intros _. reflexivity.
Qed.

Lemma calculate_parameter_s_falsy_uses_stored_witness :
  py_not (Some 0) = true
  /\ calculate_parameter_s sn (Some 0)
     = calculate_parameter_s sn (Some (Self.omega_m sn))
  /\ (calculate_parameter_s sn (Some 0) = Raises invalid_density
      <-> Self.omega_m sn = 0)
  /\ (Self.omega_m sn <> 0 ->
      calculate_parameter_s sn (Some 0)
      = pow_float ((1 - Self.omega_m sn) / Self.omega_m sn) (1 / 3)).
Proof.
  assert (Hf : py_not (Some 0) = true) by (apply Req_bool_true; reflexivity).
  split; [exact Hf |].
  exact (calculate_parameter_s_falsy_uses_stored sn (Some 0) Hf).
Defined.

(** C2.  Whenever the luminosity distance computed for the call, a scalar or
    an array, has an element that is not positive, [distance_modulus] raises
    the invalid-distance error, whatever [h] is (so also for an [h] whose
    logarithm does not exist: no logarithm is reached). *)
Theorem distance_modulus_rejects_nonpositive_distance
  (self : SNExercise) (z : option value) (omega h : option R) (v : value) :
  luminosity_distance self z omega = Returns v ->
  vany (fun d => d <= 0) v ->
  distance_modulus self z omega h = Raises invalid_distance.
Proof. apply distance_modulus_raises. Qed.

Lemma distance_modulus_rejects_nonpositive_distance_witness :
  luminosity_distance sn (Some (Array [-1 / 2; 1])) None
  = Returns (Array [d_L_spec 0.3 (-1 / 2); d_L_spec 0.3 1])
  /\ d_L_spec 0.3 (-1 / 2) < 0
  /\ 0 < d_L_spec 0.3 1
  /\ distance_modulus sn (Some (Array [-1 / 2; 1])) None (Some 0)
     = Raises invalid_distance.
Proof.
  assert (Hd : luminosity_distance sn (Some (Array [-1 / 2; 1])) None
               = Returns (Array [d_L_spec 0.3 (-1 / 2); d_L_spec 0.3 1])).
  { apply (luminosity_distance_ok sn (Array [-1 / 2; 1]) 0.3); [lra |].
    simpl. repeat constructor; lra. }
  assert (Hneg : d_L_spec 0.3 (-1 / 2) < 0) by (apply d_L_spec_neg; lra).
  repeat split; [exact Hd | exact Hneg | apply d_L_spec_pos; lra |].
  apply (distance_modulus_rejects_nonpositive_distance sn
           (Some (Array [-1 / 2; 1])) None (Some 0) _ Hd).
  simpl. apply Exists_cons_hd. lra.
Defined.

(** ** The formulas *)

(** The real power with exponent 1/3 is the cube root. *)
Lemma Rpower_third_cube (x : R) : 0 < x -> Rpower x (1 / 3) ^ 3 = x.
Proof.
  intros Hx. rewrite <- Rpower_pow by (unfold Rpower; apply exp_pos).
  rewrite Rpower_mult.
  replace (1 / 3 * INR 3) with 1 by (simpl; lra).
  apply Rpower_1. exact Hx.
Qed.

(** C7.  For a density in [1e-300, 1), where (1 - Omega_m) / Omega_m stays
    finite in binary64, [calculate_parameter_s] returns
    s = ((1 - Omega_m) / Omega_m)^(1/3), a positive real whose cube is
    (1 - Omega_m) / Omega_m. *)
Theorem calculate_parameter_s_cube_root (self : SNExercise) (omega : R) :
  1e-300 <= omega < 1 ->
  calculate_parameter_s self (Some omega)
  = Returns (Rpower ((1 - omega) / omega) (1 / 3))
  /\ 0 < Rpower ((1 - omega) / omega) (1 / 3)
  /\ Rpower ((1 - omega) / omega) (1 / 3) ^ 3 = (1 - omega) / omega.
Proof.
  intros [Hl Hu]. assert (Ho : 0 < omega < 1) by lra.
  split; [| split].
  - exact (calculate_parameter_s_ok self omega Ho).
  - exact (s_spec_pos omega).
  - apply Rpower_third_cube. apply Rdiv_lt_0_compat; lra.
Qed.

Lemma calculate_parameter_s_cube_root_witness :
  1e-300 <= 0.3 < 1
  /\ calculate_parameter_s sn (Some 0.3)
     = Returns (Rpower ((1 - 0.3) / 0.3) (1 / 3))
  /\ 0 < Rpower ((1 - 0.3) / 0.3) (1 / 3)
  /\ Rpower ((1 - 0.3) / 0.3) (1 / 3) ^ 3 = (1 - 0.3) / 0.3.
Proof.
  assert (Ho : 1e-300 <= 0.3 < 1) by lra.
  split; [exact Ho |].
  exact (calculate_parameter_s_cube_root sn 0.3 Ho).
Defined.

(** C7, as the spec states it, fails on binary64: the float 1e-320 lies
    strictly between 0 and 1, the quotient (1 - Omega_m) / Omega_m overflows
    to infinity, and [calculate_parameter_s] returns infinity, not a real
    number. *)
Lemma calculate_parameter_s_infinite_at_tiny_density :
  (0 <? 1e-320)%float = true
  /\ (1e-320 <? 1)%float = true
  /\ Binary64.calculate_parameter_s Binary64.sn (Some 1e-320%float)
     = Binary64.Returns infinity.
Proof. vm_compute. repeat split; reflexivity. Qed.

(** C8.  For a redshift whose elements are all at least 0,
    [calculate_scale_factor] returns 1 / (1 + z) element by element, every
    element of the result lies in (0, 1], and at redshift 0 the result is 1. *)
Theorem calculate_scale_factor_unit_interval (self : SNExercise) (z : value) :
  vall (fun x => 0 <= x) z ->
  calculate_scale_factor self (Some z)
  = Returns (vmap (fun x => 1 / (1 + x)) z)
  /\ vall (fun a => 0 < a <= 1) (vmap (fun x => 1 / (1 + x)) z)
  /\ calculate_scale_factor self (Some (Scalar 0)) = Returns (Scalar 1).
Proof.
  intros Hz. split; [| split].
  - apply calculate_scale_factor_ok. revert Hz. apply vall_impl. intros; lra.
  - apply vall_vmap. revert Hz. apply vall_impl. intros x Hx.
    assert (H1 : 0 < 1 + x) by lra.
    split.
    + apply Rdiv_lt_0_compat; lra.
    + apply Rmult_le_reg_r with (1 + x); [exact H1 |].
      unfold Rdiv. rewrite Rmult_assoc, Rinv_l by lra. lra.
  - rewrite (calculate_scale_factor_ok self (Scalar 0)) by (simpl; lra).
    simpl. unfold a_spec. f_equal. f_equal. lra.
Qed.

Lemma calculate_scale_factor_unit_interval_witness :
  vall (fun x => 0 <= x) (Array [0; 1 / 2; 1])
  /\ calculate_scale_factor sn (Some (Array [0; 1 / 2; 1]))
     = Returns (vmap (fun x => 1 / (1 + x)) (Array [0; 1 / 2; 1]))
  /\ vall (fun a => 0 < a <= 1)
       (vmap (fun x => 1 / (1 + x)) (Array [0; 1 / 2; 1]))
  /\ calculate_scale_factor sn (Some (Scalar 0)) = Returns (Scalar 1).
Proof.
  assert (Hz : vall (fun x => 0 <= x) (Array [0; 1 / 2; 1])).
  { simpl. repeat constructor; lra. }
  split; [exact Hz |].
  exact (calculate_scale_factor_unit_interval sn (Array [0; 1 / 2; 1]) Hz).
Defined.

(** C4.  For a density in [1e-100, 1) and a redshift none of whose elements
    is -1 or beyond 1e50 in absolute value (arguments that keep the binary64
    run away from overflow), [calculate_parameter_s] returns some s,
    [calculate_scale_factor] returns some a, and [conformal_time] returns,
    element by element,
    2 sqrt(s^3 + 1) (a^-4 - 0.1540 s a^-3 + 0.4304 s^2 a^-2
                     + 0.19097 s^3 a^-1 + 0.066941 s^4)^(-1/8). *)
Theorem conformal_time_formula (self : SNExercise) (z : value) (omega : R) :
  1e-100 <= omega < 1 ->
  vall (fun x => x <> -1 /\ -1e50 <= x <= 1e50) z ->
  exists (s : R) (a : value),
    calculate_parameter_s self (Some omega) = Returns s
    /\ calculate_scale_factor self (Some z) = Returns a
    /\ conformal_time self (Some z) (Some omega)
       = Returns (vmap (fun ai =>
           2 * sqrt (s ^ 3 + 1)
           * Rpower (/ ai ^ 4 - 0.1540 * s * / ai ^ 3
                     + 0.4304 * s ^ 2 * / ai ^ 2
                     + 0.19097 * s ^ 3 * / ai + 0.066941 * s ^ 4)
                    (-1 / 8)) a).
Proof.
  intros [Hl Hu] Hr. assert (Ho : 0 < omega < 1) by lra.
  pose proof (vall_range_neq z Hr) as Hz.
  exists (s_spec omega), (vmap a_spec z).
  split; [| split].
  - exact (calculate_parameter_s_ok self omega Ho).
  - exact (calculate_scale_factor_ok self z Hz).
  - rewrite conformal_time_ok by assumption.
    rewrite vmap_vmap. reflexivity.
Qed.

Lemma conformal_time_formula_witness :
  1e-100 <= 0.3 < 1
  /\ vall (fun x => x <> -1 /\ -1e50 <= x <= 1e50) (Scalar 1)
  /\ exists (s : R) (a : value),
    calculate_parameter_s sn (Some 0.3) = Returns s
    /\ calculate_scale_factor sn (Some (Scalar 1)) = Returns a
    /\ conformal_time sn (Some (Scalar 1)) (Some 0.3)
       = Returns (vmap (fun ai =>
           2 * sqrt (s ^ 3 + 1)
           * Rpower (/ ai ^ 4 - 0.1540 * s * / ai ^ 3
                     + 0.4304 * s ^ 2 * / ai ^ 2
                     + 0.19097 * s ^ 3 * / ai + 0.066941 * s ^ 4)
                    (-1 / 8)) a).
Proof.
  assert (Ho : 1e-100 <= 0.3 < 1) by lra.
  assert (Hz : vall (fun x => x <> -1 /\ -1e50 <= x <= 1e50) (Scalar 1))
    by (simpl; lra).
  split; [exact Ho |]. split; [exact Hz |].
  exact (conformal_time_formula sn (Scalar 1) 0.3 Ho Hz).
Defined.

(** C4, as the spec states it, fails on binary64.  At the density 2^-1000,
    strictly between 0 and 1, and the redshift 0 the power [s ** 4]
    overflows and [conformal_time] raises [OverflowError]; at the density
    0.3 and the redshift 2^257 the quotient [1 / a ** 4] overflows to
    infinity and [conformal_time] returns 0.0, where the formula of the
    claim is positive. *)
Lemma conformal_time_out_of_range :
  Binary64.conformal_time Binary64.sn (Some 0%float) (Some 0x1p-1000%float)
  = Binary64.Raises Binary64.OverflowError
  /\ Binary64.conformal_time Binary64.sn (Some 0x1p257%float)
       (Some 0.3%float)
     = Binary64.Returns 0%float
  /\ 0 < eta 0.3 (2 ^ 257).
Proof.
  split; [vm_compute; reflexivity |].
  split; [vm_compute; reflexivity | apply eta_pos].
Qed.

(** C5.  For a density in [1e-100, 1) and a redshift, given as an argument
    or left to the stored one, none of whose elements is -1 or beyond 1e50
    in absolute value, [conformal_time] returns eta(0) at the literal
    redshift 0 and eta(z) at the requested redshift, and
    [luminosity_distance] returns 3000 (z + 1) (eta(0) - eta(z)) element by
    element. *)
Theorem luminosity_distance_formula
  (self : SNExercise) (redshift : option value) (omega : R) :
  1e-100 <= omega < 1 ->
  vall (fun x => x <> -1 /\ -1e50 <= x <= 1e50)
    (or_default redshift (Self.redshift_range self)) ->
  exists (eta_0 : R) (eta_z : R -> R),
    conformal_time self (Some (Scalar 0)) (Some omega)
    = Returns (Scalar eta_0)
    /\ conformal_time self redshift (Some omega)
       = Returns (vmap eta_z
                   (or_default redshift (Self.redshift_range self)))
    /\ luminosity_distance self redshift (Some omega)
       = Returns (vmap (fun x => 3000 * (x + 1) * (eta_0 - eta_z x))
                   (or_default redshift (Self.redshift_range self))).
Proof.
  intros [Hl Hu] Hr. assert (Ho : 0 < omega < 1) by lra.
  pose proof (vall_range_neq _ Hr) as Hz.
  exists (eta omega 0), (eta omega).
  split; [| split].
  - rewrite conformal_time_ok by (simpl; lra). reflexivity.
  - exact (conformal_time_ok self _ omega Ho Hz).
  - exact (luminosity_distance_ok self _ omega Ho Hz).
Qed.

Lemma luminosity_distance_formula_witness :
  1e-100 <= 0.3 < 1
  /\ vall (fun x => x <> -1 /\ -1e50 <= x <= 1e50) (Array [1 / 2; 2])
  /\ exists (eta_0 : R) (eta_z : R -> R),
    conformal_time sn (Some (Scalar 0)) (Some 0.3) = Returns (Scalar eta_0)
    /\ conformal_time sn (Some (Array [1 / 2; 2])) (Some 0.3)
       = Returns (vmap eta_z (Array [1 / 2; 2]))
    /\ luminosity_distance sn (Some (Array [1 / 2; 2])) (Some 0.3)
       = Returns (vmap (fun x => 3000 * (x + 1) * (eta_0 - eta_z x))
                    (Array [1 / 2; 2])).
Proof.
  assert (Ho : 1e-100 <= 0.3 < 1) by lra.
  assert (Hz : vall (fun x => x <> -1 /\ -1e50 <= x <= 1e50)
                 (Array [1 / 2; 2])).
  { simpl. repeat constructor; lra. }
  split; [exact Ho |]. split; [exact Hz |].
  exact (luminosity_distance_formula sn (Some (Array [1 / 2; 2])) 0.3 Ho Hz).
Defined.

(** C5, as the spec states it for every redshift and every density in
    (0, 1), fails on binary64: at the redshift -1 the scale factor divides
    by zero and [luminosity_distance] raises [ZeroDivisionError]; at the
    redshift 2^270 the power [a ** 4] underflows to 0 and the division by it
    raises [ZeroDivisionError]; at the density 2^-1000 the first
    [conformal_time] call raises [OverflowError]. *)
Lemma luminosity_distance_out_of_range :
  Binary64.luminosity_distance Binary64.sn (Some (-1)%float) (Some 0.3%float)
  = Binary64.Raises Binary64.ZeroDivisionError
  /\ Binary64.luminosity_distance Binary64.sn (Some 0x1p270%float)
       (Some 0.3%float)
     = Binary64.Raises Binary64.ZeroDivisionError
  /\ Binary64.luminosity_distance Binary64.sn (Some 1%float)
       (Some 0x1p-1000%float)
     = Binary64.Raises Binary64.OverflowError.
Proof. vm_compute. repeat split; reflexivity. Qed.

(** C6.  When the luminosity distance computed for the call is strictly
    positive in every element and h is positive, [distance_modulus] returns
    mu = 25 - 5 log10(h) + 5 log10(d_L) element by element. *)
Theorem distance_modulus_formula
  (self : SNExercise) (z : value) (omega h : R) (d_L : value) :
  0 < omega < 1 ->
  0 < h ->
  luminosity_distance self (Some z) (Some omega) = Returns d_L ->
  vall (fun d => 0 < d) d_L ->
  distance_modulus self (Some z) (Some omega) (Some h)
  = Returns (vmap (fun d => 25 - 5 * log10 h + 5 * log10 d) d_L).
Proof.
  intros _ Hh Hd Hpos.
  exact (distance_modulus_ok self (Some z) (Some omega) (Some h) d_L
           Hd Hpos Hh).
Qed.

Lemma distance_modulus_formula_witness :
  0 < 0.3 < 1
  /\ 0 < 0.7
  /\ luminosity_distance sn (Some (Array [1 / 2; 1])) (Some 0.3)
     = Returns (Array [d_L_spec 0.3 (1 / 2); d_L_spec 0.3 1])
  /\ vall (fun d => 0 < d) (Array [d_L_spec 0.3 (1 / 2); d_L_spec 0.3 1])
  /\ distance_modulus sn (Some (Array [1 / 2; 1])) (Some 0.3) (Some 0.7)
     = Returns (vmap (fun d => 25 - 5 * log10 0.7 + 5 * log10 d)
                  (Array [d_L_spec 0.3 (1 / 2); d_L_spec 0.3 1])).
Proof.
  assert (Ho : 0 < 0.3 < 1) by lra.
  assert (Hh : 0 < 0.7) by lra.
  assert (Hd : luminosity_distance sn (Some (Array [1 / 2; 1])) (Some 0.3)
               = Returns (Array [d_L_spec 0.3 (1 / 2); d_L_spec 0.3 1])).
  { apply (luminosity_distance_ok sn (Array [1 / 2; 1]) 0.3 Ho).
    simpl. repeat constructor; lra. }
  assert (Hpos : vall (fun d => 0 < d)
                   (Array [d_L_spec 0.3 (1 / 2); d_L_spec 0.3 1])).
  { simpl. repeat constructor; apply d_L_spec_pos; lra. }
  repeat split; try lra; [exact Hd | exact Hpos |].
  exact (distance_modulus_formula sn (Array [1 / 2; 1]) 0.3 0.7 _
           Ho Hh Hd Hpos).
Defined.

(** ** Relations between the results *)

(** C9.  For a density in [1e-100, 1), the evaluation of [conformal_time]
    at the literal redshift 0 and the one at the requested redshift 0 return
    one and the same value, and [luminosity_distance] returns 0. *)
Theorem luminosity_distance_at_zero (self : SNExercise) (omega : R) :
  1e-100 <= omega < 1 ->
  (exists eta_0 : R,
     conformal_time self (Some (Scalar 0)) (Some omega)
     = Returns (Scalar eta_0))
  /\ luminosity_distance self (Some (Scalar 0)) (Some omega)
     = Returns (Scalar 0).
Proof.
  intros [Hl Hu]. assert (Ho : 0 < omega < 1) by lra. split.
  - exists (eta omega 0).
    rewrite conformal_time_ok by (simpl; lra). reflexivity.
  - rewrite (luminosity_distance_ok self (Scalar 0) omega Ho) by (simpl; lra).
    simpl. rewrite d_L_spec_0. reflexivity.
Qed.

Lemma luminosity_distance_at_zero_witness :
  1e-100 <= 0.3 < 1
  /\ (exists eta_0 : R,
        conformal_time sn (Some (Scalar 0)) (Some 0.3)
        = Returns (Scalar eta_0))
  /\ luminosity_distance sn (Some (Scalar 0)) (Some 0.3) = Returns (Scalar 0).
Proof.
  assert (Ho : 1e-100 <= 0.3 < 1) by lra.
  split; [exact Ho |].
  exact (luminosity_distance_at_zero sn 0.3 Ho).
Defined.

(** C9, as the spec states it for every density in (0, 1), fails on
    binary64: at the density 2^-1000 and the redshift 0 the power [s ** 4]
    overflows inside the first [conformal_time] call, and
    [luminosity_distance] raises [OverflowError]; it returns no 0. *)
Lemma luminosity_distance_at_zero_overflows :
  (0 <? 0x1p-1000)%float = true
  /\ (0x1p-1000 <? 1)%float = true
  /\ Binary64.luminosity_distance Binary64.sn (Some 0%float)
       (Some 0x1p-1000%float)
     = Binary64.Raises Binary64.OverflowError.
Proof. vm_compute. repeat split; reflexivity. Qed.




(** * Further properties of the methods *)

(** ** Conformal time *)

(** For a density in [1e-100, 1) and a redshift none of whose elements is
    -1 or beyond 1e50 in absolute value, [conformal_time] returns, and every
    element of the result is positive. *)
Theorem conformal_time_positive (self : SNExercise) (z : value) (omega : R) :
  1e-100 <= omega < 1 ->
  vall (fun x => x <> -1 /\ -1e50 <= x <= 1e50) z ->
  exists e : value,
    conformal_time self (Some z) (Some omega) = Returns e
    /\ vall (fun y => 0 < y) e.
Proof.
  intros [Hl Hu] Hr. assert (Ho : 0 < omega < 1) by lra.
  exists (vmap (eta omega) z). split.
  - exact (conformal_time_ok self z omega Ho (vall_range_neq z Hr)).
  - apply vall_vmap. apply vall_trivial. intros x. apply eta_pos.
Qed.

Lemma conformal_time_positive_witness :
  1e-100 <= 0.3 < 1
  /\ vall (fun x => x <> -1 /\ -1e50 <= x <= 1e50) (Array [0; 10])
  /\ exists e : value,
    conformal_time sn (Some (Array [0; 10])) (Some 0.3) = Returns e
    /\ vall (fun y => 0 < y) e.
Proof.
  assert (Ho : 1e-100 <= 0.3 < 1) by lra.
  assert (Hz : vall (fun x => x <> -1 /\ -1e50 <= x <= 1e50)
                 (Array [0; 10])).
  { simpl. repeat constructor; lra. }
  split; [exact Ho |]. split; [exact Hz |].
  exact (conformal_time_positive sn (Array [0; 10]) 0.3 Ho Hz).
Defined.



(** ** Luminosity distance *)

(** For a density in [1e-100, 1) and a scalar redshift between -1 and 1e50,
    [luminosity_distance] returns, and the distance is on the side of 0 the
    redshift is on: at most 0 for z <= 0, at least 0 for z >= 0 (so 0 at
    z = 0). *)
Theorem luminosity_distance_sign (self : SNExercise) (omega z : R) :
  1e-100 <= omega < 1 -> -1 < z -> z <= 1e50 ->
  exists d : R,
    luminosity_distance self (Some (Scalar z)) (Some omega)
    = Returns (Scalar d)
    /\ (z <= 0 -> d <= 0) /\ (0 <= z -> 0 <= d).
Proof.
  intros [Hl Hu] Hz Hz'. assert (Ho : 0 < omega < 1) by lra.
  exists (d_L_spec omega z). split; [| split].
  - apply (luminosity_distance_ok self (Scalar z) omega Ho). simpl. lra.
  - intros Hneg. destruct (Req_dec z 0) as [-> | Hne].
    + rewrite d_L_spec_0. lra.
    + apply Rlt_le, d_L_spec_neg; lra.
  - intros Hpos. destruct (Req_dec z 0) as [-> | Hne].
    + rewrite d_L_spec_0. lra.
    + apply Rlt_le, d_L_spec_pos; lra.
Qed.

Lemma luminosity_distance_sign_witness :
  1e-100 <= 0.3 < 1 /\ -1 < -1 / 2 /\ -1 / 2 <= 1e50
  /\ exists d : R,
    luminosity_distance sn (Some (Scalar (-1 / 2))) (Some 0.3)
    = Returns (Scalar d)
    /\ (-1 / 2 <= 0 -> d <= 0) /\ (0 <= -1 / 2 -> 0 <= d).
Proof.
  assert (Ho : 1e-100 <= 0.3 < 1) by lra.
  assert (Hz : -1 < -1 / 2) by lra.
  assert (Hz' : -1 / 2 <= 1e50) by lra.
  split; [exact Ho |]. split; [exact Hz |]. split; [exact Hz' |].
  exact (luminosity_distance_sign sn 0.3 (-1 / 2) Ho Hz Hz').
Defined.

(** ** Distance modulus *)

Lemma ln_10_pos : 0 < ln 10.
Proof. rewrite <- ln_1. apply ln_increasing; lra. Qed.

Lemma log10_incr (x y : R) : 0 < x -> x < y -> log10 x < log10 y.
Proof.
  intros Hx Hxy. unfold log10, Rdiv.
  apply Rmult_lt_compat_r.
  - apply Rinv_0_lt_compat, ln_10_pos.
  - apply ln_increasing; assumption.
Qed.

Lemma log10_1 : log10 1 = 0.
Proof. unfold log10. rewrite ln_1. unfold Rdiv. apply Rmult_0_l. Qed.

Lemma distance_modulus_positive_redshift
  (self : SNExercise) (z : value) (omega h : R) :
  0 < omega < 1 -> 0 < h -> vall (fun x => 0 < x) z ->
  distance_modulus self (Some z) (Some omega) (Some h)
  = Returns (vmap (fun x => mu_spec h (d_L_spec omega x)) z).
Proof.
  intros Ho Hh Hz.
  rewrite (distance_modulus_ok self (Some z) (Some omega) (Some h)
             (vmap (d_L_spec omega) z)).
  - simpl or_default. rewrite vmap_vmap. reflexivity.
  - apply luminosity_distance_ok; [exact Ho |].
    revert Hz. apply vall_impl. intros; lra.
  - apply vall_vmap. revert Hz. apply vall_impl. intros x Hx.
    apply d_L_spec_pos. exact Hx.
  - exact Hh.
Qed.

(** For a density in [0.01, 1), a positive h and a redshift all of whose
    elements lie in [1e-3, 1e6] (far enough from 0 for eta(0) - eta(z) not to
    cancel in binary64), [distance_modulus] returns: the luminosity distance
    is 3000 (z + 1) (eta(0) - eta(z)) and the result is
    25 - 5 log10(h) + 5 log10 of it, element by element. *)
Theorem distance_modulus_closed_form
  (self : SNExercise) (z : value) (omega h : R) :
  0.01 <= omega < 1 -> 0 < h -> vall (fun x => 1e-3 <= x <= 1e6) z ->
  luminosity_distance self (Some z) (Some omega)
  = Returns (vmap (fun x => 3000 * (x + 1) * (eta omega 0 - eta omega x)) z)
  /\ distance_modulus self (Some z) (Some omega) (Some h)
     = Returns (vmap (fun x =>
         25 - 5 * log10 h
         + 5 * log10 (3000 * (x + 1) * (eta omega 0 - eta omega x))) z).
Proof.
  intros [Hl Hu] Hh Hr. assert (Ho : 0 < omega < 1) by lra.
  assert (Hz : vall (fun x => 0 < x) z).
  { revert Hr. apply vall_impl. intros; lra. }
  split.
  - apply luminosity_distance_ok; [exact Ho |].
    revert Hz. apply vall_impl. intros; lra.
  - exact (distance_modulus_positive_redshift self z omega h Ho Hh Hz).
Qed.

Lemma distance_modulus_closed_form_witness :
  0.01 <= 0.3 < 1 /\ 0 < 0.7
  /\ vall (fun x => 1e-3 <= x <= 1e6) (Array [1 / 2; 1])
  /\ luminosity_distance sn (Some (Array [1 / 2; 1])) (Some 0.3)
     = Returns (vmap (fun x => 3000 * (x + 1) * (eta 0.3 0 - eta 0.3 x))
                  (Array [1 / 2; 1]))
  /\ distance_modulus sn (Some (Array [1 / 2; 1])) (Some 0.3) (Some 0.7)
     = Returns (vmap (fun x =>
         25 - 5 * log10 0.7
         + 5 * log10 (3000 * (x + 1) * (eta 0.3 0 - eta 0.3 x)))
         (Array [1 / 2; 1])).
Proof.
  assert (Ho : 0.01 <= 0.3 < 1) by lra.
  assert (Hh : 0 < 0.7) by lra.
  assert (Hz : vall (fun x => 1e-3 <= x <= 1e6) (Array [1 / 2; 1])).
  { simpl. repeat constructor; lra. }
  split; [exact Ho |]. split; [exact Hh |]. split; [exact Hz |].
  exact (distance_modulus_closed_form sn (Array [1 / 2; 1]) 0.3 0.7 Ho Hh Hz).
Defined.

Lemma vany_vmap_of (P Q R' : R -> Prop) (g : R -> R) (v : value) :
  (forall x, P x -> Q x -> R' (g x)) ->
  vall P v -> vany Q v -> vany R' (vmap g v).
Proof.
  intros Hg. destruct v as [x | xs]; simpl.
  - apply Hg.
  - intros Hall Hex. apply Exists_exists in Hex.
    destruct Hex as [x [Hin Hq]].
    apply Exists_exists. exists (g x). split.
    + apply in_map. exact Hin.
    + apply Hg; [| exact Hq].
      rewrite Forall_forall in Hall. apply Hall. exact Hin.
Qed.

(** For a density in [1e-100, 1) and a redshift whose elements all lie
    between -1 and 1e50, one element that is not positive (redshift 0
    included) makes [distance_modulus] raise the invalid-distance error,
    whatever h is. *)
Theorem distance_modulus_rejects_redshift_up_to_zero
  (self : SNExercise) (z : value) (omega : R) (h : option R) :
  1e-100 <= omega < 1 ->
  vall (fun x => -1 < x <= 1e50) z ->
  vany (fun x => x <= 0) z ->
  distance_modulus self (Some z) (Some omega) h = Raises invalid_distance.
Proof.
  intros [Hl Hu] Hall Hany. assert (Ho : 0 < omega < 1) by lra.
  apply (distance_modulus_raises self (Some z) (Some omega) h
           (vmap (d_L_spec omega) z)).
  - apply luminosity_distance_ok; [exact Ho |].
    revert Hall. apply vall_impl. intros; lra.
  - revert Hall Hany. apply vany_vmap_of. intros x H1 H0.
    destruct (Req_dec x 0) as [-> | Hne].
    + rewrite d_L_spec_0. lra.
    + apply Rlt_le, d_L_spec_neg; lra.
Qed.

Lemma distance_modulus_rejects_redshift_up_to_zero_witness :
  1e-100 <= 0.3 < 1
  /\ vall (fun x => -1 < x <= 1e50) (Array [1; 0; 2])
  /\ vany (fun x => x <= 0) (Array [1; 0; 2])
  /\ distance_modulus sn (Some (Array [1; 0; 2])) (Some 0.3) None
     = Raises invalid_distance.
Proof.
  assert (Ho : 1e-100 <= 0.3 < 1) by lra.
  assert (Hall : vall (fun x => -1 < x <= 1e50) (Array [1; 0; 2])).
  { simpl. repeat constructor; lra. }
  assert (Hany : vany (fun x => x <= 0) (Array [1; 0; 2])).
  { simpl. apply Exists_cons_tl, Exists_cons_hd. lra. }
  split; [exact Ho |]. split; [exact Hall |]. split; [exact Hany |].
  exact (distance_modulus_rejects_redshift_up_to_zero sn (Array [1; 0; 2])
           0.3 None Ho Hall Hany).
Defined.

(** For a density in [0.01, 1) and a positive h, the distance modulus does
    not decrease with the redshift on [1e-6, 1e6]: for z1 < z2 in that
    interval both calls return and the modulus at z1 is at most the modulus
    at z2. *)
Theorem distance_modulus_nondecreasing
  (self : SNExercise) (omega h z1 z2 : R) :
  0.01 <= omega < 1 -> 0 < h -> 1e-6 <= z1 -> z1 < z2 -> z2 <= 1e6 ->
  exists m1 m2 : R,
    distance_modulus self (Some (Scalar z1)) (Some omega) (Some h)
    = Returns (Scalar m1)
    /\ distance_modulus self (Some (Scalar z2)) (Some omega) (Some h)
       = Returns (Scalar m2)
    /\ m1 <= m2.
Proof.
  intros [Hl Hu] Hh H1 H12 H2. assert (Ho : 0 < omega < 1) by lra.
  exists (mu_spec h (d_L_spec omega z1)), (mu_spec h (d_L_spec omega z2)).
  split; [| split].
  - apply (distance_modulus_positive_redshift self (Scalar z1) omega h Ho Hh).
    simpl. lra.
  - apply (distance_modulus_positive_redshift self (Scalar z2) omega h Ho Hh).
    simpl. lra.
  - unfold mu_spec.
    assert (Hd : log10 (d_L_spec omega z1) < log10 (d_L_spec omega z2)).
    { apply log10_incr.
      - apply d_L_spec_pos. lra.
      - apply d_L_spec_incr; lra. }
    lra.
Qed.

Lemma distance_modulus_nondecreasing_witness :
  0.01 <= 0.3 < 1 /\ 0 < 0.7 /\ 1e-6 <= 1 /\ 1 < 2 /\ 2 <= 1e6
  /\ exists m1 m2 : R,
    distance_modulus sn (Some (Scalar 1)) (Some 0.3) (Some 0.7)
    = Returns (Scalar m1)
    /\ distance_modulus sn (Some (Scalar 2)) (Some 0.3) (Some 0.7)
       = Returns (Scalar m2)
    /\ m1 <= m2.
Proof.
  assert (Ho : 0.01 <= 0.3 < 1) by lra.
  assert (Hh : 0 < 0.7) by lra.
  assert (H1 : 1e-6 <= 1) by lra.
  assert (H12 : 1 < 2) by lra.
  assert (H2 : 2 <= 1e6) by lra.
  split; [exact Ho |]. split; [exact Hh |]. split; [exact H1 |].
  split; [exact H12 |]. split; [exact H2 |].
  exact (distance_modulus_nondecreasing sn 0.3 0.7 1 2 Ho Hh H1 H12 H2).
Defined.

(** The Hubble parameter only shifts the distance modulus: for a density in
    [0.01, 1) and a redshift all of whose elements lie in [1e-6, 1e6], the
    result for a positive h is the result for h = 1 minus 5 log10(h),
    element by element. *)
Theorem distance_modulus_hubble_shift
  (self : SNExercise) (z : value) (omega h : R) :
  0.01 <= omega < 1 -> 0 < h -> vall (fun x => 1e-6 <= x <= 1e6) z ->
  exists m1 : value,
    distance_modulus self (Some z) (Some omega) (Some 1) = Returns m1
    /\ distance_modulus self (Some z) (Some omega) (Some h)
       = Returns (vmap (fun m => m - 5 * log10 h) m1).
Proof.
  intros [Hl Hu] Hh Hr. assert (Ho : 0 < omega < 1) by lra.
  assert (Hz : vall (fun x => 0 < x) z).
  { revert Hr. apply vall_impl. intros; lra. }
  exists (vmap (fun x => mu_spec 1 (d_L_spec omega x)) z). split.
  - apply distance_modulus_positive_redshift; [exact Ho | lra | exact Hz].
  - rewrite distance_modulus_positive_redshift by assumption.
    rewrite vmap_vmap. f_equal. apply vmap_ext. apply vall_trivial.
    intros x. unfold mu_spec. rewrite log10_1. lra.
Qed.

Lemma distance_modulus_hubble_shift_witness :
  0.01 <= 0.3 < 1 /\ 0 < 0.7 /\ vall (fun x => 1e-6 <= x <= 1e6) (Scalar 1)
  /\ exists m1 : value,
    distance_modulus sn (Some (Scalar 1)) (Some 0.3) (Some 1) = Returns m1
    /\ distance_modulus sn (Some (Scalar 1)) (Some 0.3) (Some 0.7)
       = Returns (vmap (fun m => m - 5 * log10 0.7) m1).
Proof.
  assert (Ho : 0.01 <= 0.3 < 1) by lra.
  assert (Hh : 0 < 0.7) by lra.
  assert (Hz : vall (fun x => 1e-6 <= x <= 1e6) (Scalar 1)) by (simpl; lra).
  split; [exact Ho |]. split; [exact Hh |]. split; [exact Hz |].
  exact (distance_modulus_hubble_shift sn (Scalar 1) 0.3 0.7 Ho Hh Hz).
Defined.

Lemma Forall2_map_of (g : R -> R) (P : R -> R -> Prop) (xs : list R) :
  Forall (fun x => P x (g x)) xs -> Forall2 P xs (map g xs).
Proof.
  induction 1 as [| x xs Hx _ IH]; simpl; constructor; assumption.
Qed.

(** An array call agrees with the scalar calls: for a density in [0.01, 1),
    a positive h and an array of redshifts in [1e-6, 1e6],
    [distance_modulus] on the array returns an array whose elements are, in
    order, what [distance_modulus] returns on each redshift alone. *)
Theorem distance_modulus_array_elementwise
  (self : SNExercise) (zs : list R) (omega h : R) :
  0.01 <= omega < 1 -> 0 < h -> Forall (fun x => 1e-6 <= x <= 1e6) zs ->
  exists ms : list R,
    distance_modulus self (Some (Array zs)) (Some omega) (Some h)
    = Returns (Array ms)
    /\ Forall2
         (fun z m =>
            distance_modulus self (Some (Scalar z)) (Some omega) (Some h)
            = Returns (Scalar m))
         zs ms.
Proof.
  intros [Hl Hu] Hh Hr. assert (Ho : 0 < omega < 1) by lra.
  assert (Hz : Forall (fun x => 0 < x) zs).
  { revert Hr. apply Forall_impl. intros; lra. }
  exists (map (fun x => mu_spec h (d_L_spec omega x)) zs). split.
  - exact (distance_modulus_positive_redshift self (Array zs) omega h
             Ho Hh Hz).
  - apply Forall2_map_of. revert Hz. apply Forall_impl. intros x Hx.
    exact (distance_modulus_positive_redshift self (Scalar x) omega h
             Ho Hh Hx).
Qed.

Lemma distance_modulus_array_elementwise_witness :
  0.01 <= 0.3 < 1 /\ 0 < 0.7
  /\ Forall (fun x => 1e-6 <= x <= 1e6) [1 / 2; 1]
  /\ exists ms : list R,
    distance_modulus sn (Some (Array [1 / 2; 1])) (Some 0.3) (Some 0.7)
    = Returns (Array ms)
    /\ Forall2
         (fun z m =>
            distance_modulus sn (Some (Scalar z)) (Some 0.3) (Some 0.7)
            = Returns (Scalar m))
         [1 / 2; 1] ms.
Proof.
  assert (Ho : 0.01 <= 0.3 < 1) by lra.
  assert (Hh : 0 < 0.7) by lra.
  assert (Hz : Forall (fun x => 1e-6 <= x <= 1e6) [1 / 2; 1]).
  { repeat constructor; lra. }
  split; [exact Ho |]. split; [exact Hh |]. split; [exact Hz |].
  exact (distance_modulus_array_elementwise sn [1 / 2; 1] 0.3 0.7 Ho Hh Hz).
Defined.

(** ** The density argument along the call chain *)

Lemma calculate_parameter_s_stored (self : SNExercise) :
  calculate_parameter_s self (Some (Self.omega_m self))
  = if Req_bool (Self.omega_m self) 0 then Raises invalid_density
    else pow_float ((1 - Self.omega_m self) / Self.omega_m self) (1 / 3).
Proof.
  destruct (Req_bool (Self.omega_m self) 0) eqn:E.
  - rewrite calculate_parameter_s_falsy by exact E. rewrite E. reflexivity.
  - apply calculate_parameter_s_nonzero.
    intros H0. apply Req_bool_true in H0. congruence.
Qed.

Lemma calculate_parameter_s_zero_stored (self : SNExercise) :
  calculate_parameter_s self (Some 0)
  = calculate_parameter_s self (Some (Self.omega_m self)).
Proof.
  rewrite calculate_parameter_s_stored.
  apply calculate_parameter_s_falsy. apply Req_bool_true. reflexivity.
Qed.

Lemma conformal_time_zero_stored (self : SNExercise) (z : option value) :
  conformal_time self z (Some 0) = conformal_time self z None.
Proof.
  unfold conformal_time. simpl or_default.
  rewrite calculate_parameter_s_zero_stored. reflexivity.
Qed.

Lemma luminosity_distance_zero_stored (self : SNExercise) (z : option value) :
  luminosity_distance self z (Some 0) = luminosity_distance self z None.
Proof.
  unfold luminosity_distance. simpl or_default.
  rewrite !conformal_time_zero_stored. reflexivity.
Qed.

(** A density argument 0 is lost along the whole chain: [conformal_time],
    [luminosity_distance] and [distance_modulus] called with [omega_m = 0]
    give what they give without a density argument, that is the result for
    the stored density. *)
Theorem zero_density_argument_is_ignored
  (self : SNExercise) (z : option value) (h : option R) :
  conformal_time self z (Some 0) = conformal_time self z None
  /\ luminosity_distance self z (Some 0) = luminosity_distance self z None
  /\ distance_modulus self z (Some 0) h = distance_modulus self z None h.
Proof.
  split; [| split].
  - apply conformal_time_zero_stored.
  - apply luminosity_distance_zero_stored.
  - unfold distance_modulus. simpl or_default.
    rewrite luminosity_distance_zero_stored. reflexivity.
Qed.

Lemma conformal_time_stored_zero
  (self : SNExercise) (z : option value) (o : option R) :
  Self.omega_m self = 0 -> py_not o = true ->
  conformal_time self z o = Raises invalid_density.
Proof.
  intros H0 Hf. unfold conformal_time.
  rewrite calculate_parameter_s_falsy.
  - rewrite Req_bool_true by exact H0. reflexivity.
  - destruct o as [x |]; simpl in *; [exact Hf |].
    apply Req_bool_true. exact H0.
Qed.

Lemma luminosity_distance_stored_zero
  (self : SNExercise) (z : option value) (o : option R) :
  Self.omega_m self = 0 -> py_not o = true ->
  luminosity_distance self z o = Raises invalid_density.
Proof.
  intros H0 Hf. unfold luminosity_distance.
  rewrite conformal_time_stored_zero; [reflexivity | exact H0 |].
  destruct o as [x |]; simpl in *; [exact Hf |].
  apply Req_bool_true. exact H0.
Qed.

(** On an instance whose stored density is 0, every call that leaves the
    density to the instance (no argument, or the argument 0) raises the
    invalid-density error, in [conformal_time], [luminosity_distance] and
    [distance_modulus] alike and for every redshift and h: the density is
    checked before anything is computed from the redshift. *)
Theorem stored_zero_density_raises
  (self : SNExercise) (z : option value) (o h : option R) :
  Self.omega_m self = 0 -> py_not o = true ->
  conformal_time self z o = Raises invalid_density
  /\ luminosity_distance self z o = Raises invalid_density
  /\ distance_modulus self z o h = Raises invalid_density.
Proof.
  intros H0 Hf. split; [| split].
  - apply conformal_time_stored_zero; assumption.
  - apply luminosity_distance_stored_zero; assumption.
  - unfold distance_modulus.
    rewrite luminosity_distance_stored_zero; [reflexivity | exact H0 |].
    destruct o as [x |]; simpl in *; [exact Hf |].
    apply Req_bool_true. exact H0.
Qed.

Lemma stored_zero_density_raises_witness :
  Self.omega_m sn_zero_density = 0 /\ py_not None = true
  /\ conformal_time sn_zero_density (Some (Scalar (-1))) None
     = Raises invalid_density
  /\ luminosity_distance sn_zero_density (Some (Scalar (-1))) None
     = Raises invalid_density
  /\ distance_modulus sn_zero_density (Some (Scalar (-1))) None (Some 0)
     = Raises invalid_density.
Proof.
  split; [reflexivity |]. split; [reflexivity |].
  exact (stored_zero_density_raises sn_zero_density (Some (Scalar (-1)))
           None (Some 0) eq_refl eq_refl).
Defined.

Lemma conformal_time_any_instance
  (self1 self2 : SNExercise) (z : value) (omega : R) :
  omega <> 0 ->
  conformal_time self1 (Some z) (Some omega)
  = conformal_time self2 (Some z) (Some omega).
Proof.
  intros Ho. unfold conformal_time. simpl or_default.
  rewrite !calculate_parameter_s_nonzero by exact Ho. reflexivity.
Qed.

Lemma luminosity_distance_any_instance
  (self1 self2 : SNExercise) (z : value) (omega : R) :
  omega <> 0 ->
  luminosity_distance self1 (Some z) (Some omega)
  = luminosity_distance self2 (Some z) (Some omega).
Proof.
  intros Ho. unfold luminosity_distance. simpl or_default.
  rewrite (conformal_time_any_instance self1 self2 (Scalar 0) omega Ho).
  rewrite (conformal_time_any_instance self1 self2 z omega Ho).
  reflexivity.
Qed.

(** With all arguments given and a density argument other than 0, the
    results do not depend on the instance: two instances, whatever their
    stored redshift, h and density, give the same [conformal_time],
    [luminosity_distance] and [distance_modulus]. *)
Theorem explicit_arguments_override_instance
  (self1 self2 : SNExercise) (z : value) (omega h : R) :
  omega <> 0 ->
  conformal_time self1 (Some z) (Some omega)
  = conformal_time self2 (Some z) (Some omega)
  /\ luminosity_distance self1 (Some z) (Some omega)
     = luminosity_distance self2 (Some z) (Some omega)
  /\ distance_modulus self1 (Some z) (Some omega) (Some h)
     = distance_modulus self2 (Some z) (Some omega) (Some h).
Proof.
  intros Ho. split; [| split].
  - apply conformal_time_any_instance. exact Ho.
  - apply luminosity_distance_any_instance. exact Ho.
  - unfold distance_modulus. simpl or_default.
    rewrite (luminosity_distance_any_instance self1 self2 z omega Ho).
    reflexivity.
Qed.

Lemma explicit_arguments_override_instance_witness :
  0.3 <> 0
  /\ conformal_time sn (Some (Scalar 2)) (Some 0.3)
     = conformal_time sn_zero_density (Some (Scalar 2)) (Some 0.3)
  /\ luminosity_distance sn (Some (Scalar 2)) (Some 0.3)
     = luminosity_distance sn_zero_density (Some (Scalar 2)) (Some 0.3)
  /\ distance_modulus sn (Some (Scalar 2)) (Some 0.3) (Some 1)
     = distance_modulus sn_zero_density (Some (Scalar 2)) (Some 0.3) (Some 1).
Proof.
  assert (Ho : 0.3 <> 0) by lra.
  split; [exact Ho |].
  exact (explicit_arguments_override_instance sn sn_zero_density (Scalar 2)
           0.3 1 Ho).
Defined.

(** ** Scale factor and parameter s *)

(** The scale factor does not increase with the redshift above -1: for
    -1 < z1 < z2 both calls return and a(z2) is at most a(z1). *)
Theorem calculate_scale_factor_nonincreasing
  (self : SNExercise) (z1 z2 : R) :
  -1 < z1 -> z1 < z2 ->
  exists a1 a2 : R,
    calculate_scale_factor self (Some (Scalar z1)) = Returns (Scalar a1)
    /\ calculate_scale_factor self (Some (Scalar z2)) = Returns (Scalar a2)
    /\ a2 <= a1.
Proof.
  intros H1 H12. exists (a_spec z1), (a_spec z2). split; [| split].
  - apply (calculate_scale_factor_ok self (Scalar z1)). simpl. lra.
  - apply (calculate_scale_factor_ok self (Scalar z2)). simpl. lra.
  - unfold a_spec, Rdiv. rewrite !Rmult_1_l.
    apply Rlt_le, Rinv_lt_contravar; [| lra].
    apply Rmult_lt_0_compat; lra.
Qed.

Lemma calculate_scale_factor_nonincreasing_witness :
  -1 < -1 / 2 /\ -1 / 2 < 3
  /\ exists a1 a2 : R,
    calculate_scale_factor sn (Some (Scalar (-1 / 2))) = Returns (Scalar a1)
    /\ calculate_scale_factor sn (Some (Scalar 3)) = Returns (Scalar a2)
    /\ a2 <= a1.
Proof.
  assert (H1 : -1 < -1 / 2) by lra.
  assert (H12 : -1 / 2 < 3) by lra.
  split; [exact H1 |]. split; [exact H12 |].
  exact (calculate_scale_factor_nonincreasing sn (-1 / 2) 3 H1 H12).
Defined.

(** The parameter s does not increase with the density on [1e-300, 1): for
    1e-300 <= omega1 < omega2 < 1 both calls return and s(omega2) is at most
    s(omega1). *)
Theorem calculate_parameter_s_nonincreasing
  (self : SNExercise) (omega1 omega2 : R) :
  1e-300 <= omega1 -> omega1 < omega2 -> omega2 < 1 ->
  exists s1 s2 : R,
    calculate_parameter_s self (Some omega1) = Returns s1
    /\ calculate_parameter_s self (Some omega2) = Returns s2
    /\ s2 <= s1.
Proof.
  intros H1 H12 H2. exists (s_spec omega1), (s_spec omega2).
  split; [| split].
  - apply calculate_parameter_s_ok. lra.
  - apply calculate_parameter_s_ok. lra.
  - unfold s_spec. apply Rlt_le, Rlt_Rpower_l; [lra |]. split.
    + apply Rdiv_lt_0_compat; lra.
    + unfold Rdiv.
      assert (Hi : / omega2 < / omega1).
      { apply Rinv_lt_contravar; [apply Rmult_lt_0_compat; lra | lra]. }
      assert (Hp : 0 < / omega2) by (apply Rinv_0_lt_compat; lra).
      assert (Ha : (1 - omega2) * / omega2 < (1 - omega1) * / omega2).
      { apply Rmult_lt_compat_r; lra. }
      assert (Hb : (1 - omega1) * / omega2 < (1 - omega1) * / omega1).
      { apply Rmult_lt_compat_l; lra. }
      lra.
Qed.

Lemma calculate_parameter_s_nonincreasing_witness :
  1e-300 <= 0.1 /\ 0.1 < 0.9 /\ 0.9 < 1
  /\ exists s1 s2 : R,
    calculate_parameter_s sn (Some 0.1) = Returns s1
    /\ calculate_parameter_s sn (Some 0.9) = Returns s2
    /\ s2 <= s1.
Proof.
  assert (H1 : 1e-300 <= 0.1) by lra.
  assert (H12 : 0.1 < 0.9) by lra.
  assert (H2 : 0.9 < 1) by lra.
  split; [exact H1 |]. split; [exact H12 |]. split; [exact H2 |].
  exact (calculate_parameter_s_nonincreasing sn 0.1 0.9 H1 H12 H2).
Defined.

(** ** The density 1 *)

Lemma calculate_parameter_s_one (self : SNExercise) :
  calculate_parameter_s self (Some 1) = Returns 0.
Proof.
  rewrite calculate_parameter_s_nonzero by lra.
  replace ((1 - 1) / 1) with 0 by lra.
  unfold pow_float.
  rewrite (Rlt_bool_false 0 0) by lra.
  rewrite (Req_bool_true 0 0) by reflexivity.
  rewrite (Rlt_bool_true 0 (1 / 3)) by lra. reflexivity.
Qed.

Lemma conformal_time_given_s
  (self : SNExercise) (z : value) (omega s : R) :
  calculate_parameter_s self (Some omega) = Returns s ->
  0 <= s ->
  vall (fun x => x <> -1) z ->
  vall (fun x => 0 < multiplicand_spec s (a_spec x)) z ->
  conformal_time self (Some z) (Some omega)
  = Returns (vmap (fun x => eta_spec s (a_spec x)) z).
Proof.
  intros Hcs Hs Hz Hm. unfold conformal_time. simpl or_default.
  rewrite Hcs. cbn [bind].
  rewrite calculate_scale_factor_ok by exact Hz. cbn [bind].
  assert (Ha : vall (fun x => a_spec x <> 0) z).
  { revert Hz. apply vall_impl. exact a_spec_neq_0. }
  rewrite np_sqrt_ok
    by (assert (0 <= s ^ 3) by (apply pow_le; exact Hs); lra).
  cbn [bind]. unfold vadd, vsub, vmul.
  rewrite vpow_V. cbn [bind].
  rewrite vdiv_SV
    by (revert Ha; apply vall_impl; intros x Hx; apply pow_nonzero; exact Hx).
  cbn [bind]. rewrite vpow_V. cbn [bind].
  rewrite vdiv_SV
    by (revert Ha; apply vall_impl; intros x Hx; apply pow_nonzero; exact Hx).
  cbn [bind]. rewrite vpow_V. cbn [bind].
  rewrite vdiv_SV
    by (revert Ha; apply vall_impl; intros x Hx; apply pow_nonzero; exact Hx).
  cbn [bind]. rewrite vdiv_SV by exact Ha. cbn [bind].
  rewrite lift2_VV. cbn [bind]. rewrite lift2_VV. cbn [bind].
  rewrite lift2_VV. cbn [bind]. rewrite lift2_VS. cbn [bind].
  rewrite vpow_float_V.
  - cbn [bind]. rewrite lift2_SV. f_equal. apply vmap_ext.
    apply vall_trivial. intros x. unfold eta_spec.
    rewrite multiplicand_code. reflexivity.
  - revert Hm. apply vall_impl. intros x Hx.
    rewrite multiplicand_code. exact Hx.
Qed.

Lemma multiplicand_spec_s0 (z : R) :
  -1 < z -> multiplicand_spec 0 (a_spec z) = (1 + z) ^ 4.
Proof.
  intros Hz. rewrite multiplicand_spec_quartic.
  rewrite inv_a_spec by lra. lra.
Qed.

Lemma Rpower_pow4_eighth (X : R) :
  0 < X -> Rpower (X ^ 4) (-1 / 8) = / sqrt X.
Proof.
  intros HX. rewrite <- (Rpower_pow 4 X HX). rewrite Rpower_mult.
  replace (INR 4 * (-1 / 8)) with (- / 2) by (simpl; lra).
  rewrite Rpower_Ropp, Rpower_sqrt by exact HX. reflexivity.
Qed.

Lemma eta_spec_s0 (z : R) :
  -1 < z -> eta_spec 0 (a_spec z) = 2 / sqrt (1 + z).
Proof.
  intros Hz. unfold eta_spec. rewrite multiplicand_spec_s0 by exact Hz.
  rewrite Rpower_pow4_eighth by lra.
  replace (0 ^ 3 + 1) with 1 by lra. rewrite sqrt_1. unfold Rdiv. lra.
Qed.

Lemma conformal_time_density_one (self : SNExercise) (z : value) :
  vall (fun x => -1 < x) z ->
  conformal_time self (Some z) (Some 1)
  = Returns (vmap (fun x => 2 / sqrt (1 + x)) z).
Proof.
  intros Hz.
  rewrite (conformal_time_given_s self z 1 0 (calculate_parameter_s_one self)).
  - f_equal. apply vmap_ext. revert Hz. apply vall_impl.
    intros x Hx. apply eta_spec_s0. exact Hx.
  - lra.
  - revert Hz. apply vall_impl. intros; lra.
  - revert Hz. apply vall_impl. intros x Hx.
    rewrite multiplicand_spec_s0 by exact Hx. apply pow_lt. lra.
Qed.

(** At the density 1 (matter only) the fit has a closed form: s is 0, and
    for a redshift whose elements lie between -1 and 1e50 [conformal_time]
    returns 2 / sqrt(1 + z) and [luminosity_distance] returns
    6000 (1 + z - sqrt(1 + z)), element by element. *)
Theorem density_one_closed_form (self : SNExercise) (z : value) :
  vall (fun x => -1 < x <= 1e50) z ->
  calculate_parameter_s self (Some 1) = Returns 0
  /\ conformal_time self (Some z) (Some 1)
     = Returns (vmap (fun x => 2 / sqrt (1 + x)) z)
  /\ luminosity_distance self (Some z) (Some 1)
     = Returns (vmap (fun x => 6000 * (1 + x - sqrt (1 + x))) z).
Proof.
  intros Hr.
  assert (Hz : vall (fun x => -1 < x) z).
  { revert Hr. apply vall_impl. intros x [Hx _]. exact Hx. }
  split; [| split].
  - apply calculate_parameter_s_one.
  - apply conformal_time_density_one. exact Hz.
  - unfold luminosity_distance. simpl or_default.
    rewrite (conformal_time_density_one self (Scalar 0)) by (simpl; lra).
    cbn [bind vmap].
    rewrite conformal_time_density_one by exact Hz. cbn [bind].
    unfold vadd, vmul, vsub.
    rewrite <- (vmap_id z) at 1. rewrite lift2_VS. cbn [bind].
    rewrite lift2_SV. cbn [bind]. rewrite lift2_SV. cbn [bind].
    rewrite lift2_VV. f_equal. apply vmap_ext.
    revert Hz. apply vall_impl. intros x Hx.
    replace (1 + 0) with 1 by lra. rewrite sqrt_1.
    assert (Hs : 0 < sqrt (1 + x)) by (apply sqrt_lt_R0; lra).
    assert (Hq : sqrt (1 + x) * sqrt (1 + x) = 1 + x)
      by (apply sqrt_sqrt; lra).
    assert (Hd : (x + 1) * / sqrt (1 + x) = sqrt (1 + x)).
    { apply Rmult_eq_reg_r with (sqrt (1 + x)); [| lra].
      rewrite Rmult_assoc, Rinv_l by lra. lra. }
    unfold Rdiv.
    replace (3000 * (x + 1) * (2 * / 1 - 2 * / sqrt (1 + x)))
      with (6000 * ((x + 1) - (x + 1) * / sqrt (1 + x))) by lra.
    rewrite Hd. lra.
Qed.

Lemma density_one_closed_form_witness :
  vall (fun x => -1 < x <= 1e50) (Array [0; 3])
  /\ calculate_parameter_s sn (Some 1) = Returns 0
  /\ conformal_time sn (Some (Array [0; 3])) (Some 1)
     = Returns (vmap (fun x => 2 / sqrt (1 + x)) (Array [0; 3]))
  /\ luminosity_distance sn (Some (Array [0; 3])) (Some 1)
     = Returns (vmap (fun x => 6000 * (1 + x - sqrt (1 + x))) (Array [0; 3])).
Proof.
  assert (Hz : vall (fun x => -1 < x <= 1e50) (Array [0; 3])).
  { simpl. repeat constructor; lra. }
  split; [exact Hz |].
  exact (density_one_closed_form sn (Array [0; 3]) Hz).
Defined.

(** ** Shapes *)

Lemma bind_returns {A B : Type} (m : outcome A) (k : A -> outcome B) (b : B) :
  bind m k = Returns b -> exists a : A, m = Returns a /\ k a = Returns b.
Proof.
  destruct m as [a | e |]; simpl; intros Hb; try discriminate.
  exists a. split; [reflexivity | exact Hb].
Qed.

Lemma same_shape_refl (v : value) : same_shape v v.
Proof. destruct v; simpl; auto. Qed.

Lemma same_shape_sym (v w : value) : same_shape v w -> same_shape w v.
Proof. destruct v, w; simpl; auto. Qed.

Lemma same_shape_trans (u v w : value) :
  same_shape u v -> same_shape v w -> same_shape u w.
Proof. destruct u, v, w; simpl; auto; try contradiction. congruence. Qed.

Lemma same_shape_vmap (g : R -> R) (v : value) : same_shape (vmap g v) v.
Proof. destruct v; simpl; [auto | apply length_map]. Qed.

Lemma mapM_length (f : R -> outcome R) (xs ys : list R) :
  mapM f xs = Returns ys -> List.length ys = List.length xs.
Proof.
  revert ys. induction xs as [| x xs IH]; simpl; intros ys Hys.
  - injection Hys as <-. reflexivity.
  - apply bind_returns in Hys. destruct Hys as [y [_ Hys]].
    apply bind_returns in Hys. destruct Hys as [ys' [Hm Hys]].
    injection Hys as <-. simpl. f_equal. apply IH. exact Hm.
Qed.

Lemma zipM_length (f : R -> R -> outcome R) (xs ys zs : list R) :
  List.length xs = List.length ys ->
  zipM f xs ys = Returns zs -> List.length zs = List.length xs.
Proof.
  revert ys zs. induction xs as [| x xs IH]; intros [| y ys] zs Hl; simpl;
    intros Hzs; try discriminate.
  - injection Hzs as <-. reflexivity.
  - apply bind_returns in Hzs. destruct Hzs as [c [_ Hzs]].
    apply bind_returns in Hzs. destruct Hzs as [zs' [Hm Hzs]].
    injection Hzs as <-. simpl. f_equal.
    apply (IH ys); [| exact Hm]. simpl in Hl. congruence.
Qed.

Section Shapes.

(** The shape of the redshift that a call works on. *)
Variable z : value.

Lemma ufunc1_shape (f : R -> outcome R) (v w : value) :
  same_shape v z -> ufunc1 f v = Returns w -> same_shape w z.
Proof.
  intros Hv Hw. apply same_shape_trans with v; [| exact Hv].
  destruct v as [x | xs]; simpl in Hw;
    apply bind_returns in Hw; destruct Hw as [y [Hy Hw]];
    injection Hw as <-; simpl; [auto |].
  apply mapM_length in Hy. exact Hy.
Qed.

Lemma ufunc2_shape_SV (f : R -> R -> outcome R) (c : R) (v w : value) :
  same_shape v z -> ufunc2 f (Scalar c) v = Returns w -> same_shape w z.
Proof.
  intros Hv Hw. apply same_shape_trans with v; [| exact Hv].
  destruct v as [x | xs]; simpl in Hw;
    apply bind_returns in Hw; destruct Hw as [y [Hy Hw]];
    injection Hw as <-; simpl; [auto |].
  apply mapM_length in Hy. exact Hy.
Qed.

Lemma ufunc2_shape_VS (f : R -> R -> outcome R) (c : R) (v w : value) :
  same_shape v z -> ufunc2 f v (Scalar c) = Returns w -> same_shape w z.
Proof.
  intros Hv Hw. apply same_shape_trans with v; [| exact Hv].
  destruct v as [x | xs]; simpl in Hw;
    apply bind_returns in Hw; destruct Hw as [y [Hy Hw]];
    injection Hw as <-; simpl; [auto |].
  apply mapM_length in Hy. exact Hy.
Qed.

Lemma ufunc2_shape_VV (f : R -> R -> outcome R) (u v w : value) :
  same_shape u z -> same_shape v z ->
  ufunc2 f u v = Returns w -> same_shape w z.
Proof.
  intros Hu Hv Hw. apply same_shape_trans with u; [| exact Hu].
  assert (Huv : same_shape u v).
  { apply same_shape_trans with z; [exact Hu | apply same_shape_sym, Hv]. }
  destruct u as [x | xs], v as [y | ys]; simpl in Huv; try contradiction;
    simpl in Hw.
  - apply bind_returns in Hw. destruct Hw as [c [_ Hw]].
    injection Hw as <-. simpl. auto.
  - rewrite Huv, Nat.eqb_refl in Hw.
    apply bind_returns in Hw. destruct Hw as [zs [Hzs Hw]].
    injection Hw as <-. simpl.
    apply (zipM_length f xs ys zs); [exact Huv | exact Hzs].
Qed.

End Shapes.

(** One bind of a method: name what it returned and, when it is a value
    computed from values of the shape of [z], record that it has that
    shape. *)
Ltac shape_fact z Hv :=
  first
    [ apply (ufunc2_shape_VV z) in Hv; [| assumption | assumption]
    | apply (ufunc2_shape_SV z) in Hv; [| assumption]
    | apply (ufunc2_shape_VS z) in Hv; [| assumption]
    | apply (ufunc1_shape z) in Hv; [| assumption]
    | idtac ].

Ltac shape_step z H :=
  let v := fresh "v" in
  let Hv := fresh "Hv" in
  apply bind_returns in H; destruct H as [v [Hv H]]; shape_fact z Hv.

Lemma calculate_scale_factor_shape
  (self : SNExercise) (z a : value) :
  calculate_scale_factor self (Some z) = Returns a -> same_shape a z.
Proof.
  unfold calculate_scale_factor. simpl or_default. intros H.
  pose proof (same_shape_refl z) as Hz.
  shape_step z H. shape_fact z H. exact H.
Qed.

Lemma conformal_time_shape
  (self : SNExercise) (z : value) (omega : option R) (e : value) :
  conformal_time self (Some z) omega = Returns e -> same_shape e z.
Proof.
  unfold conformal_time. simpl or_default. intros H.
  apply bind_returns in H. destruct H as [s [_ H]].
  apply bind_returns in H. destruct H as [a [Ha H]].
  apply calculate_scale_factor_shape in Ha.
  apply bind_returns in H. destruct H as [root [_ H]].
  do 12 shape_step z H.
  shape_fact z H. exact H.
Qed.

Lemma luminosity_distance_shape_of
  (self : SNExercise) (z : value) (omega : option R) (d : value) :
  luminosity_distance self (Some z) omega = Returns d -> same_shape d z.
Proof.
  unfold luminosity_distance. simpl or_default. intros H.
  pose proof (same_shape_refl z) as Hz.
  apply bind_returns in H. destruct H as [eta_a1 [H0 H]].
  apply conformal_time_shape in H0.
  destruct eta_a1 as [e0 | es]; [| contradiction].
  apply bind_returns in H. destruct H as [eta_z [He H]].
  apply conformal_time_shape in He.
  do 3 shape_step z H.
  shape_fact z H. exact H.
Qed.

(** Whenever [luminosity_distance] returns, scalar or array, in or out of
    the physical range of its arguments, the result has the shape of the
    redshift it was computed for: a scalar for a scalar, an array of the same
    length for an array. *)
Theorem luminosity_distance_shape
  (self : SNExercise) (z : option value) (omega : option R) (d : value) :
  luminosity_distance self z omega = Returns d ->
  same_shape d (or_default z (Self.redshift_range self)).
Proof.
  intros H.
  apply (luminosity_distance_shape_of self
           (or_default z (Self.redshift_range self)) omega).
  exact H.
Qed.

Lemma luminosity_distance_shape_witness :
  luminosity_distance sn (Some (Array [-1 / 2; 1])) None
  = Returns (Array [d_L_spec 0.3 (-1 / 2); d_L_spec 0.3 1])
  /\ same_shape (Array [d_L_spec 0.3 (-1 / 2); d_L_spec 0.3 1])
       (or_default (Some (Array [-1 / 2; 1])) (Self.redshift_range sn)).
Proof.
  assert (Hd : luminosity_distance sn (Some (Array [-1 / 2; 1])) None
               = Returns (Array [d_L_spec 0.3 (-1 / 2); d_L_spec 0.3 1])).
  { apply (luminosity_distance_ok sn (Array [-1 / 2; 1]) 0.3); [lra |].
    simpl. repeat constructor; lra. }
  split; [exact Hd |].
  exact (luminosity_distance_shape sn (Some (Array [-1 / 2; 1])) None _ Hd).
Defined.

(** ** Construction and use *)

(** Construction fails exactly when the loaded parameters lack a key: a
    missing [h] is reported first, a missing [omega_m] when [h] is there, and
    with both keys the instance holds the redshift passed and the two
    parameters. *)
Theorem init_key_errors
  (parameters : string -> option R) (redshift : value) :
  (parameters "h"%string = None ->
   __init__ parameters redshift = KeyError "h")
  /\ (parameters "h"%string <> None ->
      parameters "omega_m"%string = None ->
      __init__ parameters redshift = KeyError "omega_m")
  /\ (forall h omega : R,
        parameters "h"%string = Some h ->
        parameters "omega_m"%string = Some omega ->
        __init__ parameters redshift
        = Constructed {| Self.redshift_range := redshift;
                         Self.h := h;
                         Self.omega_m := omega |})
  /\ ((exists key : string, __init__ parameters redshift = KeyError key)
      <-> parameters "h"%string = None
          \/ parameters "omega_m"%string = None).
Proof.
  unfold __init__.
  destruct (parameters "h"%string) as [h |] eqn:Eh;
    destruct (parameters "omega_m"%string) as [omega |] eqn:Eo.
  - split; [discriminate |]. split; [discriminate |].
    split; [intros h' omega' Hh Hom; congruence |].
    split; [intros [key Hkey]; discriminate | intros [H | H]; discriminate].
  - split; [discriminate |]. split; [reflexivity |].
    split; [intros h' omega' Hh Hom; discriminate |].
    split; [right; reflexivity | intros _; eexists; reflexivity].
  - split; [reflexivity |]. split; [intros Hne; contradiction |].
    split; [intros h' omega' Hh Hom; discriminate |].
    split; [left; reflexivity | intros _; eexists; reflexivity].
  - split; [reflexivity |]. split; [intros Hne; contradiction |].
    split; [intros h' omega' Hh Hom; discriminate |].
    split; [left; reflexivity | intros _; eexists; reflexivity].
Qed.

(** An instance built from parameters with a density in [0.01, 1) and a
    positive h, for a redshift all of whose elements lie in [1e-3, 1e6],
    computes with them when called without arguments: [distance_modulus()]
    returns 25 - 5 log10(h) + 5 log10(d_L(z)) for the configured h and
    density and the redshift of the construction. *)
Theorem constructed_instance_uses_configuration
  (parameters : string -> option R) (redshift : value) (h omega : R) :
  parameters "h"%string = Some h ->
  parameters "omega_m"%string = Some omega ->
  0.01 <= omega < 1 -> 0 < h ->
  vall (fun x => 1e-3 <= x <= 1e6) redshift ->
  exists self : SNExercise,
    __init__ parameters redshift = Constructed self
    /\ distance_modulus self None None None
       = Returns (vmap (fun x =>
           25 - 5 * log10 h
           + 5 * log10 (3000 * (x + 1) * (eta omega 0 - eta omega x)))
           redshift).
Proof.
  intros Eh Eo [Hl Hu] Hh Hr. assert (Ho : 0 < omega < 1) by lra.
  assert (Hz : vall (fun x => 0 < x) redshift).
  { revert Hr. apply vall_impl. intros; lra. }
  exists {| Self.redshift_range := redshift; Self.h := h;
            Self.omega_m := omega |}.
  split.
  - unfold __init__. rewrite Eh, Eo. reflexivity.
  - exact (distance_modulus_positive_redshift _ redshift omega h Ho Hh Hz).
Qed.

Lemma constructed_instance_uses_configuration_witness :
  sn_parameters "h"%string = Some 0.7
  /\ sn_parameters "omega_m"%string = Some 0.3
  /\ 0.01 <= 0.3 < 1 /\ 0 < 0.7
  /\ vall (fun x => 1e-3 <= x <= 1e6) (Array [1 / 2; 1])
  /\ exists self : SNExercise,
    __init__ sn_parameters (Array [1 / 2; 1]) = Constructed self
    /\ distance_modulus self None None None
       = Returns (vmap (fun x =>
           25 - 5 * log10 0.7
           + 5 * log10 (3000 * (x + 1) * (eta 0.3 0 - eta 0.3 x)))
           (Array [1 / 2; 1])).
Proof.
  assert (Ho : 0.01 <= 0.3 < 1) by lra.
  assert (Hh : 0 < 0.7) by lra.
  assert (Hz : vall (fun x => 1e-3 <= x <= 1e6) (Array [1 / 2; 1])).
  { simpl. repeat constructor; lra. }
  split; [reflexivity |]. split; [reflexivity |].
  split; [exact Ho |]. split; [exact Hh |]. split; [exact Hz |].
  exact (constructed_instance_uses_configuration sn_parameters
           (Array [1 / 2; 1]) 0.7 0.3 eq_refl eq_refl Ho Hh Hz).
Defined.

(** * The program on binary64 floats *)

(** The reference values of the workshop's configuration (Omega_m = 0.3,
    h = 0.7) at redshift 1, and the luminosity distance at redshift 2 and
    at -1/2. *)
Example binary64_reference_values :
  Binary64.conformal_time Binary64.sn (Some 1%float) None
  = Binary64.Returns 2.535674947150782%float
  /\ Binary64.luminosity_distance Binary64.sn (Some 1%float) None
     = Binary64.Returns 4632.178183314667%float
  /\ Binary64.distance_modulus Binary64.sn (Some 1%float) None None
     = Binary64.Returns 44.103436083903382%float
  /\ Binary64.luminosity_distance Binary64.sn (Some 2%float) None
     = Binary64.Returns 10877.329267545289%float
  /\ Binary64.luminosity_distance Binary64.sn (Some (-0.5)%float) None
     = Binary64.Returns (-811.80536495296178)%float.
Proof. vm_compute. repeat split; reflexivity. Qed.

(** The failing input of C1 on binary64: with the stored density 0.3 the
    call [calculate_parameter_s(0)] returns the cube root of 0.7 / 0.3, and
    so does the call with the argument -0.0. *)
Example binary64_zero_argument_returns :
  Binary64.calculate_parameter_s Binary64.sn (Some 0%float)
  = Binary64.Returns 1.3263524026321307%float
  /\ Binary64.calculate_parameter_s Binary64.sn (Some (-0)%float)
     = Binary64.Returns 1.3263524026321307%float.
Proof. vm_compute. split; reflexivity. Qed.
